(** * btc-rainbow: the band generator of the Bitcoin rainbow chart

    A shallow embedding of [src/plot.py] (and of the entry point of
    [src/main.py]) together with the properties its specification states
    about the rainbow bands, the date extension and input validation.

    Modelling conventions.
    - NumPy's float64 arrays are lists of real numbers ([R]); [np.exp] and
      [np.log] are the real [exp] and [ln]: module [plot] evaluates the
      expressions of the code in exact arithmetic.  What float64 changes is
      kept apart in module [f64]: the exponents handed to [np.exp] computed
      in binary64, and [np.exp] where it underflows to 0.0 or overflows to
      inf.  Statements about values (order, distance, sign) are made with
      a tolerance and for moderate fits ([moderate]), so that rounding does
      not decide them; statements that need [np.log] to be the real
      logarithm carry the hypothesis that its argument is positive.
    - A pandas timestamp is a day number ([Z]); adding [timedelta(days=1)]
      is [+ 1].  A DataFrame with the columns "Date" and "Value" is a list
      of rows.
    - A Python exception is the [Raise] branch of [result]; the figure that
      the plotting functions mutate is threaded explicitly.
    - The price [y_format] labels is a single Python float, a binary64
      number: there it is a primitive [float], and formatting works on its
      exact value. *)

From Stdlib Require Import Reals Lra Lia ZArith Bool String List Sorted.
From Stdlib Require Import Floats DecimalString Ascii.
Import ListNotations.

Set Implicit Arguments.

(** ** Python exceptions and indexing *)

Inductive exn : Type :=
| ValueError          (* pandas: NaT start, negative periods *)
| IndexError          (* list index out of range *)
| InvalidInputError   (* the validation error of the curve fitter *)
| RuntimeError.       (* the least-squares solver did not converge *)

Inductive result (A : Type) : Type :=
| Ok (a : A)
| Raise (e : exn).

Arguments Ok {A} a.
Arguments Raise {A} e.

Definition bind {A B : Type} (m : result A) (k : A -> result B) : result B :=
  match m with
  | Ok a => k a
  | Raise e => Raise e
  end.

Notation "x <- m ;; k" := (bind m (fun x => k))
  (at level 61, m at next level, right associativity).

(** [for x in xs: s = body(s, x)], stopping at the first exception. *)
Fixpoint for_each {S I : Type} (body : S -> I -> result S) (xs : list I) (s : S)
  : result S :=
  match xs with
  | [] => Ok s
  | i :: rest => s' <- body s i ;; for_each body rest s'
  end.

(** [range(n)]: empty when [n <= 0]. *)
Definition range (n : Z) : list Z :=
  map Z.of_nat (seq 0 (Z.to_nat n)).

(** [np.arange(start, stop)] on integers. *)
Definition arange (start stop : Z) : list Z :=
  map (fun k => (start + Z.of_nat k)%Z) (seq 0 (Z.to_nat (stop - start))).

(** [l[i]]: a negative index counts from the end, anything outside the list
    raises [IndexError]. *)
Definition py_index {A : Type} (l : list A) (i : Z) : result A :=
  let n := Z.of_nat (length l) in
  let j := if (i <? 0)%Z then (i + n)%Z else i in
  if ((j <? 0) || (n <=? j))%Z then Raise IndexError
  else match nth_error l (Z.to_nat j) with
       | Some a => Ok a
       | None => Raise IndexError
       end.

(** ** The data the chart is drawn from *)

Record row : Type := { Date : Z; Value : R }.

Definition DataFrame : Type := list row.

(** [raw_data["Date"]] and [raw_data["Value"]]. *)
Definition col_Date (raw_data : DataFrame) : list Z := map Date raw_data.
Definition col_Value (raw_data : DataFrame) : list R := map Value raw_data.

(** [Series.max()]: [None] stands for pandas' NaT on an empty column. *)
Definition series_max (s : list Z) : option Z :=
  match s with
  | [] => None
  | d :: rest => Some (fold_left Z.max rest d)
  end.

(** [pd.date_range(start=..., periods=...)] at the default daily frequency. *)
Definition date_range (start : option Z) (periods : Z) : result (list Z) :=
  match start with
  | None => Raise ValueError
  | Some d =>
      if (periods <? 0)%Z then Raise ValueError
      else Ok (map (fun k => (d + Z.of_nat k)%Z) (seq 0 (Z.to_nat periods)))
  end.

(** ** data.py *)

Module data.

(** Modelled from the spec: [data.py] is not part of the sources at hand;
    [log_func] is the fitted model "fitted(x) = a*ln(x+b)+c" of the Curve
    Fitter and Band Generator sections. *)
Definition log_func (x a b c : R) : R := (a * ln (x + b) + c)%R.

(** Modelled from the spec: the numeric index of the fit, "numeric index
    x_i = i+1 for i-th point (1-based)". *)
Definition fit_xdata (series : DataFrame) : list Z :=
  map (fun i => (i + 1)%Z) (range (Z.of_nat (length series))).

(** A price on which the logarithm is undefined. *)
Definition non_positive (v : R) : bool :=
  if Rle_dec v 0 then true else false.

Section fit.

(** The nonlinear least-squares solver; [None] when it does not
    converge. *)
Variable curve_fit : list Z -> list R -> option (R * R * R).

(** Modelled from the spec: the Curve Fitter of [data.py], which is not
    part of the sources at hand.  "fails with InvalidInputError if any
    value <= 0 or if series has fewer than the minimum points needed for
    a 3-parameter fit (practically >= 3)"; the target is
    "y_i = ln(value_i)"; non-convergence is "surfaced as a numerical
    error from the underlying solver". *)
Definition fit (series : DataFrame) : result (R * R * R) :=
  if (length series <? 3)%nat then Raise InvalidInputError
  else if existsb non_positive (col_Value series) then
    Raise InvalidInputError
  else
    match curve_fit (fit_xdata series) (map ln (col_Value series)) with
    | Some popt => Ok popt
    | None => Raise RuntimeError
    end.

(** Modelled from the spec: [get_data] hands the loaded series and its
    fit parameters to [main]; the file's rows are the argument. *)
Definition get_data (csv : DataFrame) : result (DataFrame * (R * R * R)) :=
  popt <- fit csv ;;
  Ok (csv, popt).

End fit.

End data.

(** ** plotly.graph_objects *)

Module go.

Record Line : Type := { color : option string; width : Z }.

Record Scatter : Type := {
  x : list Z;
  y : list R;
  fill : option string;
  mode : string;
  line : Line;
  showlegend : bool;
  fillcolor : option string;
  name : option string
}.

(** Only the traces of a figure are modelled; layout is cosmetic. *)
Record Figure : Type := { data : list Scatter }.

Definition add_trace (fig : Figure) (trace : Scatter) : Figure :=
  {| data := data fig ++ [trace] |}.

End go.

(** ** Python's floats and strings, as far as [y_format] uses them

    A Python float is a binary64 number, here a primitive [float]; its exact
    value is read off [Prim2SF]. *)

Module py.

(** The decimal digits of a natural number, "0" for zero. *)
Definition digits (n : Z) : string :=
  NilEmpty.string_of_uint (N.to_uint (Z.to_N n)).

Fixpoint zeros (k : nat) : string :=
  match k with
  | O => EmptyString
  | S k' => String "0" (zeros k')
  end.

Definition sign (s : bool) : string := if s then "-"%string else ""%string.

(** [n / 10^precision] written with [precision] decimals. *)
Definition fixed (precision : nat) (n : Z) : string :=
  let scale := (10 ^ Z.of_nat precision)%Z in
  let fraction := digits (n mod scale) in
  match precision with
  | O => digits n
  | _ =>
      (digits (n / scale) ++ "."
       ++ zeros (precision - String.length fraction) ++ fraction)%string
  end.

(** [num / den] rounded to the nearest integer, a tie to the even one. *)
Definition round_half_even (num den : Z) : Z :=
  let q := (num / den)%Z in
  match (2 * (num mod den) ?= den)%Z with
  | Lt => q
  | Gt => (q + 1)%Z
  | Eq => if Z.even q then q else (q + 1)%Z
  end.

(** [format(y, ".<precision>f")]: the exact value of [y] correctly rounded
    to [precision] decimals; the sign shows whenever the sign bit is set. *)
Definition format_f (precision : nat) (y : float) : string :=
  let scale := (10 ^ Z.of_nat precision)%Z in
  match Prim2SF y with
  | S754_nan => "nan"%string
  | S754_infinity s => (sign s ++ "inf")%string
  | S754_zero s => (sign s ++ fixed precision 0)%string
  | S754_finite s m e =>
      let n := if (0 <=? e)%Z then (Z.pos m * 2 ^ e * scale)%Z
               else round_half_even (Z.pos m * scale) (2 ^ (- e)) in
      (sign s ++ fixed precision n)%string
  end.

(** [int(y)]: truncation toward zero; [None] where Python raises (nan and
    the infinities). *)
Definition int_of_float (y : float) : option Z :=
  match Prim2SF y with
  | S754_zero _ => Some 0%Z
  | S754_finite s m e =>
      let magnitude := if (0 <=? e)%Z then (Z.pos m * 2 ^ e)%Z
                       else (Z.pos m / 2 ^ (- e))%Z in
      Some (if s then (- magnitude)%Z else magnitude)
  | S754_infinity _ | S754_nan => None
  end.

(** The digits from the last to the first, a comma after every third one
    that has a digit left of it. *)
Fixpoint comma_groups (rev_digits : list ascii) (k : nat) : list ascii :=
  match rev_digits with
  | [] => []
  | d :: rest =>
      match rest with
      | [] => [d]
      | _ :: _ =>
          if (k =? 2)%nat then d :: ","%char :: comma_groups rest 0
          else d :: comma_groups rest (S k)
      end
  end.

(** [format(n, ",")] *)
Definition format_comma (n : Z) : string :=
  (sign (n <? 0)%Z
   ++ string_of_list_ascii
        (rev (comma_groups
                (rev (list_ascii_of_string (digits (Z.abs n)))) 0)))%string.

(** [s.replace(old, new)] for a non-empty [old]: the occurrences of [old]
    are replaced from left to right, without overlap.  [skip] counts the
    characters of an occurrence still to be dropped. *)
Fixpoint replace_from (old new : string) (skip : nat) (s : string) : string :=
  match s with
  | EmptyString => EmptyString
  | String c rest =>
      match skip with
      | S k => replace_from old new k rest
      | O =>
          if prefix old s then
            (new ++ replace_from old new (String.length old - 1) rest)%string
          else String c (replace_from old new 0 rest)
      end
  end.

Definition replace (old new s : string) : string := replace_from old new 0 s.

End py.

(** ** plot.py *)

Module plot.

Open Scope string_scope.
Open Scope list_scope.

Definition COLORS_LABELS : list (string * string) :=
  [ ("#c00200", "Maximum bubble territory");
    ("#d64018", "Sell. Seriously, SELL!");
    ("#ed7d31", "FOMO Intensifies");
    ("#f6b45a", "Is this a bubble?");
    ("#feeb84", "HODL!");
    ("#b1d580", "Still cheap");
    ("#63be7b", "Accumulate");
    ("#54989f", "BUY!");
    ("#4472c4", "Fire sale!") ].

Definition BAND_WIDTH : R := 0.3%R.
Definition NUM_BANDS : Z := 9.
Definition EXTEND_MONTHS : Z := 9.

(** [list(d.keys())] and [list(d.values())], in insertion order. *)
Definition keys (d : list (string * string)) : list string := map fst d.
Definition values (d : list (string * string)) : list string := map snd d.

Definition extend_dates (raw_data : DataFrame) (months : Z) : result (list Z) :=
  let last_date := series_max (col_Date raw_data) in
  extended_dates <-
    date_range (option_map (fun d => (d + 1)%Z) last_date) (months * 30) ;;
  Ok (col_Date raw_data ++ extended_dates).

(** One band of the rainbow: what an iteration of the loop of
    [plot_rainbow] computes before it draws. *)
Record Band : Type := {
  lower_bound : list R;
  upper_bound : list R;
  band_color : string;
  band_label : string
}.

(** Lines 102-108: the bounds, colour and label of band [i], the
    arithmetic being exact ([f64.lower_exponent] and [f64.upper_exponent]
    are the same exponents in binary64). *)
Definition rainbow_band (extended_fitted_ydata : list R) (band_width : R)
    (i : Z) : result Band :=
  let i_decrease := 1.5%R in
  let lower_bound :=
    map (fun v => exp (v + (IZR i - i_decrease) * band_width - band_width)%R)
        extended_fitted_ydata in
  let upper_bound :=
    map (fun v => exp (v + (IZR i - i_decrease) * band_width)%R)
        extended_fitted_ydata in
  color <- py_index (rev (keys COLORS_LABELS)) i ;;
  label <- py_index (rev (values COLORS_LABELS)) i ;;
  Ok {| lower_bound := lower_bound; upper_bound := upper_bound;
        band_color := color; band_label := label |}.

(** Lines 110-131: the two traces drawn for a band, the upper bound first
    and the lower bound filled up to it. *)
Definition draw_band (extended_dates : list Z) (fig : go.Figure) (b : Band)
  : go.Figure :=
  let fig :=
    go.add_trace fig
      {| go.x := extended_dates; go.y := upper_bound b; go.fill := None;
         go.mode := "lines"; go.line := {| go.color := None; go.width := 0 |};
         go.showlegend := false; go.fillcolor := None; go.name := None |} in
  go.add_trace fig
    {| go.x := extended_dates; go.y := lower_bound b;
       go.fill := Some "tonexty"; go.mode := "lines";
       go.line := {| go.color := None; go.width := 0 |};
       go.showlegend := true; go.fillcolor := Some (band_color b);
       go.name := Some (band_label b) |}.

(** Lines 98-99: the 1-based index over the dates and the fitted curve. *)
Definition extended_xdata (extended_dates : list Z) : list Z :=
  arange 1 (Z.of_nat (length extended_dates) + 1).

Definition extended_fitted_ydata (extended_dates : list Z) (popt : R * R * R)
  : list R :=
  let '(a, b, c) := popt in
  map (fun xi => data.log_func (IZR xi) a b c) (extended_xdata extended_dates).

Definition plot_rainbow (fig : go.Figure) (raw_data : DataFrame)
    (popt : R * R * R) (num_bands : Z) (band_width : R) : result go.Figure :=
  extended_dates <- extend_dates raw_data EXTEND_MONTHS ;;
  let ydata := extended_fitted_ydata extended_dates popt in
  for_each
    (fun fig i =>
       b <- rainbow_band ydata band_width i ;;
       Ok (draw_band extended_dates fig b))
    (range num_bands) fig.

Definition plot_price (fig : go.Figure) (raw_data : DataFrame) : go.Figure :=
  go.add_trace fig
    {| go.x := col_Date raw_data; go.y := col_Value raw_data;
       go.fill := None; go.mode := "lines";
       go.line := {| go.color := Some "black"; go.width := 2 |};
       go.showlegend := true; go.fillcolor := None;
       go.name := Some "BTC Price" |}.

(** [make_subplots()]: a figure without traces. *)
Definition make_subplots : go.Figure := {| go.data := [] |}.

(** The halving lines, the axes and the legend only touch the layout. *)
Definition create_plot (raw_data : DataFrame) (popt : R * R * R)
  : result go.Figure :=
  let fig := make_subplots in
  fig <- plot_rainbow fig raw_data popt NUM_BANDS BAND_WIDTH ;;
  let fig := plot_price fig raw_data in
  Ok fig.

(** [np.log10]. *)
Definition log10 (v : R) : R := (ln v / ln 10)%R.

(** [raw_data["Value"].max()]: [None] stands for the nan pandas gives on an
    empty column. *)
Definition values_max (s : list R) : option R :=
  match s with
  | [] => None
  | v :: rest => Some (fold_left Rmax rest v)
  end.

(** Line 195 of [configure_plot]: the range of the logarithmic y axis,
    [[np.log10(0.01), np.log10(raw_data["Value"].max() * 10)]]. *)
Definition yaxis_range (raw_data : DataFrame) : option (R * R) :=
  option_map (fun highest => (log10 0.01, log10 (highest * 10))%R)
             (values_max (col_Value raw_data)).

(** [y_format] on a float [y]; [None] where it would raise. *)
Definition y_format (y : float) : option string :=
  if (y <? 1)%float then Some ("$" ++ py.format_f 2 y)%string
  else if (y <? 10)%float then Some ("$" ++ py.format_f 1 y)%string
  else if (y <? 1000)%float then
    option_map
      (fun n => py.replace "," "." ("$" ++ py.format_comma n)%string)
      (py.int_of_float y)
  else if (y <? 1000000)%float then
    Some (py.replace "." ","
            (py.replace ".0K" "K"
               ("$" ++ py.format_f 1 (y / 1000) ++ "K")%string))
  else
    Some (py.replace "." ","
            (py.replace ".0M" "M"
               ("$" ++ py.format_f 1 (y / 1000000) ++ "M")%string)).

End plot.

(** ** The bounds of a band in binary64

    Lines 103-106 on one entry [v] of [extended_fitted_ydata], every
    operation rounded to binary64 as NumPy does it. *)

Module f64.

(** [BAND_WIDTH = 0.3]: the binary64 number nearest to 0.3. *)
Definition BAND_WIDTH : float := 0x1.3333333333333p-2%float.

(** The loop index [i] as a float. *)
Definition of_index (i : Z) : float := PrimFloat.of_uint63 (Uint63.of_Z i).

(** The argument of [np.exp] in [lower_bound]. *)
Definition lower_exponent (v band_width : float) (i : Z) : float :=
  (v + (of_index i - 1.5) * band_width - band_width)%float.

(** The argument of [np.exp] in [upper_bound]. *)
Definition upper_exponent (v band_width : float) (i : Z) : float :=
  (v + (of_index i - 1.5) * band_width)%float.

(** [np.exp] where its value does not depend on how the exponential is
    rounded: nan for nan, 0.0 below -746 (there e^x is less than 2^-1075,
    half the least positive binary64 number), inf above 710 (there e^x
    exceeds the greatest finite binary64 number).  [None] in between, where
    the last bits are the implementation's. *)
Definition np_exp_saturated (x : float) : option float :=
  if PrimFloat.is_nan x then Some nan
  else if (x <? -746)%float then Some 0%float
  else if (710 <? x)%float then Some infinity
  else None.

Definition lower_bound (v band_width : float) (i : Z) : option float :=
  np_exp_saturated (lower_exponent v band_width i).

Definition upper_bound (v band_width : float) (i : Z) : option float :=
  np_exp_saturated (upper_exponent v band_width i).

End f64.

(** ** main.py *)

Module main.

Section main.

Variable curve_fit : list Z -> list R -> option (R * R * R).

(** [main]: load and fit, then draw; the result is the figure that is
    written to the HTML file or shown.  [csv] is the content of
    "data/bitcoin_data.csv".  No exception is caught on the way. *)
Definition main (csv : DataFrame) : result go.Figure :=
  loaded <- data.get_data curve_fit csv ;;
  let '(raw_data, popt) := loaded in
  plot.create_plot raw_data popt.

End main.

(** What [main] does to the outside world: the calls that returned. *)
Inductive effect : Type :=
| write_html (fig : go.Figure) (file_path : string) (full_html : bool)
             (include_plotlyjs : string) (displayModeBar responsive : bool)
| print (text : string)
| show (fig : go.Figure) (responsive : bool).

(** Whether the output call of [main] ([fig.write_html] or [fig.show])
    returns or raises, for instance FileNotFoundError on a path that cannot
    be written. *)
Inductive io_outcome : Type :=
| io_returns
| io_raises.

(** How [main] ends. *)
Inductive ending : Type :=
| returned
| raised (e : exn)
| raised_io.

(** [main(save, file_path)] with its effects in order and how it ends.
    [loaded] is the outcome of [get_data("data/bitcoin_data.csv")], whose
    code is in [data.py]; [io] is what the output call does.  Nothing is
    caught: the first exception ends [main]. *)
Definition main_effects (loaded : result (DataFrame * (R * R * R)))
    (save : bool) (file_path : string) (io : io_outcome)
  : list effect * ending :=
  match loaded with
  | Raise e => ([], raised e)
  | Ok (raw_data, popt) =>
      match plot.create_plot raw_data popt with
      | Raise e => ([], raised e)
      | Ok fig =>
          if save then
            match io with
            | io_raises => ([], raised_io)
            | io_returns =>
                ([ write_html fig file_path true "cdn" false true;
                   print ("Chart saved to " ++ file_path)%string ],
                 returned)
            end
          else
            match io with
            | io_raises => ([], raised_io)
            | io_returns => ([ show fig true ], returned)
            end
      end
  end.

End main.

(** ** Reading the generated bands *)

(** The value a NumPy array holds for the 1-based date index [x]. *)
Definition at_index (ys : list R) (x : Z) : option R :=
  nth_error ys (Z.to_nat (x - 1)).

(** Dates in chronological order (no date before its predecessor). *)
Fixpoint chronological (ds : list Z) : bool :=
  match ds with
  | d1 :: rest =>
      match rest with
      | d2 :: _ => (d1 <=? d2)%Z && chronological rest
      | [] => true
      end
  | [] => true
  end.

(** The two traces a band contributes to the figure. *)
Definition band_traces (extended_dates : list Z) (b : plot.Band)
  : list go.Scatter :=
  go.data (plot.draw_band extended_dates plot.make_subplots b).

(** The colour and label band [i] is drawn with, if it is generated. *)
Definition band_palette (ydata : list R) (band_width : R) (i : Z)
  : option (string * string) :=
  match plot.rainbow_band ydata band_width i with
  | Ok b => Some (plot.band_color b, plot.band_label b)
  | Raise _ => None
  end.


(** The legend of a figure: the names of the traces that show in it, in
    drawing order. *)
Definition legend (fig : go.Figure) : list string :=
  flat_map (fun trace =>
              if go.showlegend trace then
                match go.name trace with
                | Some label => [label]
                | None => []
                end
              else [])
           (go.data fig).

(** * Properties *)

(** ** Ranges and indexing *)

Lemma length_range (n : Z) : length (range n) = Z.to_nat n.
Proof. unfold range. now rewrite length_map, length_seq. Qed.

Lemma nth_error_range (n : Z) (k : nat) :
  (k < Z.to_nat n)%nat -> nth_error (range n) k = Some (Z.of_nat k).
Proof.
  intros Hk. unfold range.
  rewrite nth_error_map, nth_error_seq.
  apply Nat.ltb_lt in Hk. now rewrite Hk.
Qed.

Lemma length_arange (start stop : Z) :
  length (arange start stop) = Z.to_nat (stop - start).
Proof. unfold arange. now rewrite length_map, length_seq. Qed.

Lemma nth_error_arange (start stop : Z) (k : nat) :
  (k < Z.to_nat (stop - start))%nat ->
  nth_error (arange start stop) k = Some (start + Z.of_nat k)%Z.
Proof.
  intros Hk. unfold arange.
  rewrite nth_error_map, nth_error_seq.
  apply Nat.ltb_lt in Hk. now rewrite Hk.
Qed.

Lemma py_index_in_range (A : Type) (l : list A) (i : Z) :
  (0 <= i < Z.of_nat (length l))%Z ->
  exists a, nth_error l (Z.to_nat i) = Some a /\ py_index l i = Ok a.
Proof.
  intros [Hlo Hhi]. unfold py_index.
  destruct (Z.ltb_spec i 0) as [Hneg | _]; [lia |].
  destruct (Z.ltb_spec i 0) as [Hneg | _]; [lia |].
  destruct (Z.leb_spec (Z.of_nat (length l)) i) as [Hbig | _]; [lia |].
  cbn [orb].
  destruct (nth_error l (Z.to_nat i)) as [a |] eqn:Hnth.
  - now exists a.
  - apply nth_error_None in Hnth. lia.
Qed.

Lemma py_index_out_of_range (A : Type) (l : list A) (i : Z) :
  (Z.of_nat (length l) <= i)%Z -> py_index l i = Raise IndexError.
Proof.
  intros Hbig. unfold py_index.
  destruct (Z.ltb_spec i 0) as [Hneg | _]; [lia |].
  destruct (Z.ltb_spec i 0) as [Hneg | _]; [lia |].
  destruct (Z.leb_spec (Z.of_nat (length l)) i) as [_ | Hsmall]; [| lia].
  reflexivity.
Qed.

(** ** The fitted curve over the extended dates *)

Lemma length_extended_xdata (extended_dates : list Z) :
  length (plot.extended_xdata extended_dates) = length extended_dates.
Proof. unfold plot.extended_xdata. rewrite length_arange. lia. Qed.

Lemma extended_xdata_seq (extended_dates : list Z) :
  plot.extended_xdata extended_dates
  = map Z.of_nat (seq 1 (length extended_dates)).
Proof.
  unfold plot.extended_xdata, arange.
  replace (Z.to_nat (Z.of_nat (length extended_dates) + 1 - 1))
    with (length extended_dates) by lia.
  rewrite <- seq_shift, map_map.
  apply map_ext. intros k. lia.
Qed.

Lemma length_extended_fitted_ydata (extended_dates : list Z)
    (popt : R * R * R) :
  length (plot.extended_fitted_ydata extended_dates popt)
  = length extended_dates.
Proof.
  destruct popt as [[a b] c]. unfold plot.extended_fitted_ydata.
  now rewrite length_map, length_extended_xdata.
Qed.

Lemma fitted_at_index (a b c : R) (extended_dates : list Z) (x : Z) :
  (1 <= x <= Z.of_nat (length extended_dates))%Z ->
  at_index (plot.extended_fitted_ydata extended_dates (a, b, c)) x
  = Some (a * ln (IZR x + b) + c)%R.
Proof.
  intros Hx. unfold at_index, plot.extended_fitted_ydata, plot.extended_xdata.
  rewrite nth_error_map, nth_error_arange by lia.
  cbn [option_map]. unfold data.log_func.
  now replace (1 + Z.of_nat (Z.to_nat (x - 1)))%Z with x by lia.
Qed.

Lemma at_index_map (f : R -> R) (ys : list R) (x : Z) :
  at_index (map f ys) x = option_map f (at_index ys x).
Proof. unfold at_index. apply nth_error_map. Qed.

(** ** One band *)

(** Inside the palette the loop body cannot fail, and band [i] takes entry
    [8 - i] of [COLORS_LABELS]. *)
Lemma rainbow_band_ok (ydata : list R) (band_width : R) (i : Z) :
  (0 <= i < 9)%Z ->
  exists color label,
    nth_error plot.COLORS_LABELS (Z.to_nat (8 - i)) = Some (color, label) /\
    plot.rainbow_band ydata band_width i
    = Ok {| plot.lower_bound :=
              map (fun v => exp (v + (IZR i - 1.5) * band_width - band_width)%R)
                  ydata;
            plot.upper_bound :=
              map (fun v => exp (v + (IZR i - 1.5) * band_width)%R) ydata;
            plot.band_color := color;
            plot.band_label := label |}.
Proof.
  intros Hi. unfold plot.rainbow_band.
  assert (Hcases : (i = 0 \/ i = 1 \/ i = 2 \/ i = 3 \/ i = 4 \/ i = 5
                    \/ i = 6 \/ i = 7 \/ i = 8)%Z) by lia.
  repeat (destruct Hcases as [-> | Hcases]); [.. | subst i];
    do 2 eexists; (split; [reflexivity | reflexivity]).
Qed.

(** Past the palette the colour lookup raises. *)
Lemma rainbow_band_past_palette (ydata : list R) (band_width : R) (i : Z) :
  (9 <= i)%Z -> plot.rainbow_band ydata band_width i = Raise IndexError.
Proof.
  intros Hi. unfold plot.rainbow_band.
  rewrite py_index_out_of_range; [reflexivity |].
  cbn. lia.
Qed.

(** The bounds of band [i] at the date index [x], for any band width. *)
Lemma rainbow_band_at_index (a b c : R) (extended_dates : list Z)
    (band_width : R) (i x : Z) :
  (0 <= i < 9)%Z ->
  (1 <= x <= Z.of_nat (length extended_dates))%Z ->
  exists band,
    plot.rainbow_band (plot.extended_fitted_ydata extended_dates (a, b, c))
                      band_width i = Ok band /\
    at_index (plot.upper_bound band) x
    = Some (exp (a * ln (IZR x + b) + c + (IZR i - 1.5) * band_width))%R /\
    at_index (plot.lower_bound band) x
    = Some (exp (a * ln (IZR x + b) + c + (IZR i - 1.5) * band_width
                 - band_width))%R.
Proof.
  intros Hi Hx.
  destruct (rainbow_band_ok
              (plot.extended_fitted_ydata extended_dates (a, b, c))
              band_width Hi) as (color & label & _ & Hband).
  eexists. split; [exact Hband |].
  cbn [plot.upper_bound plot.lower_bound].
  rewrite !at_index_map, (fitted_at_index a b c extended_dates Hx).
  split; reflexivity.
Qed.

(** C1. For every fit parameter triple (a, b, c), every extended date
    sequence and every band index i in [0, 9), band i is generated and at
    every 1-based date index x its upper bound is
    exp(fitted(x) + (i - 1.5) * 0.3) and its lower bound is
    exp(fitted(x) + (i - 1.5) * 0.3 - 0.3), where fitted(x) = a*ln(x+b)+c. *)
Theorem rainbow_band_bounds (a b c : R) (extended_dates : list Z) (i x : Z) :
  (0 <= i < 9)%Z ->
  (1 <= x <= Z.of_nat (length extended_dates))%Z ->
  exists band,
    plot.rainbow_band (plot.extended_fitted_ydata extended_dates (a, b, c))
                      plot.BAND_WIDTH i = Ok band /\
    at_index (plot.upper_bound band) x
    = Some (exp (a * ln (IZR x + b) + c + (IZR i - 1.5) * 0.3))%R /\
    at_index (plot.lower_bound band) x
    = Some (exp (a * ln (IZR x + b) + c + (IZR i - 1.5) * 0.3 - 0.3))%R.
Proof.
  intros Hi Hx.
  exact (rainbow_band_at_index a b c extended_dates plot.BAND_WIDTH Hi Hx).
Qed.

Lemma rainbow_band_bounds_witness :
  (0 <= 4 < 9)%Z /\ (1 <= 2 <= Z.of_nat (length [10; 11; 12]%Z))%Z /\
  exists band,
    plot.rainbow_band (plot.extended_fitted_ydata [10; 11; 12]%Z (2, 1, 3)%R)
                      plot.BAND_WIDTH 4 = Ok band /\
    at_index (plot.upper_bound band) 2
    = Some (exp (2 * ln (IZR 2 + 1) + 3 + (IZR 4 - 1.5) * 0.3))%R /\
    at_index (plot.lower_bound band) 2
    = Some (exp (2 * ln (IZR 2 + 1) + 3 + (IZR 4 - 1.5) * 0.3 - 0.3))%R.
Proof.
  split; [lia |]. split; [cbn; lia |].
  apply (@rainbow_band_bounds 2 1 3 [10; 11; 12]%Z 4 2); cbn; lia.
Defined.













(** ** Order of the bands *)

(** Against C3 as stated: with popt = (1, 0, 0) and a single date, band 0
    lies at exp(-0.75) .. exp(-0.45) and band 8 at exp(1.65) .. exp(1.95);
    band 0 is not at or above band 8. *)
Lemma band0_not_above_band8 :
  exists b0 b8,
    plot.rainbow_band (plot.extended_fitted_ydata [0%Z] (1, 0, 0)%R)
                      plot.BAND_WIDTH 0 = Ok b0 /\
    plot.rainbow_band (plot.extended_fitted_ydata [0%Z] (1, 0, 0)%R)
                      plot.BAND_WIDTH 8 = Ok b8 /\
    at_index (plot.lower_bound b0) 1 = Some (exp (-0.75))%R /\
    at_index (plot.upper_bound b0) 1 = Some (exp (-0.45))%R /\
    at_index (plot.lower_bound b8) 1 = Some (exp 1.65)%R /\
    at_index (plot.upper_bound b8) 1 = Some (exp 1.95)%R /\
    ~ (exp (-0.75) >= exp 1.65)%R /\
    ~ (exp (-0.45) >= exp 1.95)%R /\
    ~ (exp (-0.45) >= exp 1.65)%R.
Proof.
  assert (Hln : ln (IZR 1 + 0) = 0%R).
  { replace (IZR 1 + 0)%R with 1%R by lra. apply ln_1. }
  destruct (@rainbow_band_at_index 1 0 0 [0%Z] plot.BAND_WIDTH 0 1)
    as (b0 & H0 & Hu0 & Hl0); [lia | cbn; lia |].
  destruct (@rainbow_band_at_index 1 0 0 [0%Z] plot.BAND_WIDTH 8 1)
    as (b8 & H8 & Hu8 & Hl8); [lia | cbn; lia |].
  rewrite Hln in Hu0, Hl0, Hu8, Hl8.
  unfold plot.BAND_WIDTH in Hu0, Hl0, Hu8, Hl8.
  exists b0, b8.
  split; [exact H0 |]. split; [exact H8 |].
  split; [rewrite Hl0; do 2 f_equal; lra |].
  split; [rewrite Hu0; do 2 f_equal; lra |].
  split; [rewrite Hl8; do 2 f_equal; lra |].
  split; [rewrite Hu8; do 2 f_equal; lra |].
  assert (H1 : (exp (-0.75) < exp 1.65)%R) by (apply exp_increasing; lra).
  assert (H2 : (exp (-0.45) < exp 1.95)%R) by (apply exp_increasing; lra).
  assert (H3 : (exp (-0.45) < exp 1.65)%R) by (apply exp_increasing; lra).
  repeat split; intros Hge; apply Rge_le in Hge; lra.
Qed.

(** C3, amended. For every fit parameter triple and every extended date
    sequence, at every date index x where the logarithm is defined
    (x + b > 0), band 0 has a value equal to or less than band 8: its lower
    bound is at most band 8's lower bound, its upper bound at most band 8's
    upper bound, and its upper bound at most band 8's lower bound.  The
    bands run from low valuation at index 0 to high valuation at index 8. *)
Theorem band0_below_band8 (a b c : R) (extended_dates : list Z) (x : Z) :
  (1 <= x <= Z.of_nat (length extended_dates))%Z ->
  (0 < IZR x + b)%R ->
  exists b0 b8 l0 u0 l8 u8,
    plot.rainbow_band (plot.extended_fitted_ydata extended_dates (a, b, c))
                      plot.BAND_WIDTH 0 = Ok b0 /\
    plot.rainbow_band (plot.extended_fitted_ydata extended_dates (a, b, c))
                      plot.BAND_WIDTH 8 = Ok b8 /\
    at_index (plot.lower_bound b0) x = Some l0 /\
    at_index (plot.upper_bound b0) x = Some u0 /\
    at_index (plot.lower_bound b8) x = Some l8 /\
    at_index (plot.upper_bound b8) x = Some u8 /\
    (l0 <= l8)%R /\ (u0 <= u8)%R /\ (u0 <= l8)%R.
Proof.
  intros Hx _.
  destruct (@rainbow_band_at_index a b c extended_dates plot.BAND_WIDTH 0 x)
    as (b0 & H0 & Hu0 & Hl0); [lia | exact Hx |].
  destruct (@rainbow_band_at_index a b c extended_dates plot.BAND_WIDTH 8 x)
    as (b8 & H8 & Hu8 & Hl8); [lia | exact Hx |].
  exists b0, b8. do 4 eexists.
  split; [exact H0 |]. split; [exact H8 |].
  split; [exact Hl0 |]. split; [exact Hu0 |].
  split; [exact Hl8 |]. split; [exact Hu8 |].
  unfold plot.BAND_WIDTH. repeat split; left; apply exp_increasing; lra.
Qed.

Lemma band0_below_band8_witness :
  (1 <= 2 <= Z.of_nat (length [10; 11; 12]%Z))%Z /\
  (0 < IZR 2 + 1)%R /\
  exists b0 b8 l0 u0 l8 u8,
    plot.rainbow_band (plot.extended_fitted_ydata [10; 11; 12]%Z (2, 1, 3)%R)
                      plot.BAND_WIDTH 0 = Ok b0 /\
    plot.rainbow_band (plot.extended_fitted_ydata [10; 11; 12]%Z (2, 1, 3)%R)
                      plot.BAND_WIDTH 8 = Ok b8 /\
    at_index (plot.lower_bound b0) 2 = Some l0 /\
    at_index (plot.upper_bound b0) 2 = Some u0 /\
    at_index (plot.lower_bound b8) 2 = Some l8 /\
    at_index (plot.upper_bound b8) 2 = Some u8 /\
    (l0 <= l8)%R /\ (u0 <= u8)%R /\ (u0 <= l8)%R.
Proof.
  split; [cbn; lia |]. split; [lra |].
  apply (@band0_below_band8 2 1 3 [10; 11; 12]%Z 2); [cbn; lia | lra].
Defined.

(** ** Position of the band stack relative to the fitted curve *)




(** ** Colours and labels *)

(** Against C5 as stated: band 0 is drawn in "#4472c4" and named
    "Fire sale!", band 8 in "#c00200" and named "Maximum bubble territory";
    neither has the colour and label the claim gives it. *)
Lemma band0_not_maximum_bubble :
  exists b0 b8,
    plot.rainbow_band (plot.extended_fitted_ydata [0%Z] (1, 0, 0)%R)
                      plot.BAND_WIDTH 0 = Ok b0 /\
    plot.rainbow_band (plot.extended_fitted_ydata [0%Z] (1, 0, 0)%R)
                      plot.BAND_WIDTH 8 = Ok b8 /\
    plot.band_color b0 = "#4472c4"%string /\
    plot.band_label b0 = "Fire sale!"%string /\
    plot.band_color b8 = "#c00200"%string /\
    plot.band_label b8 = "Maximum bubble territory"%string /\
    plot.band_color b0 <> "#c00200"%string /\
    plot.band_label b0 <> "Maximum bubble territory"%string /\
    plot.band_color b8 <> "#4472c4"%string /\
    plot.band_label b8 <> "Fire sale!"%string.
Proof.
  do 2 eexists.
  split; [reflexivity |]. split; [reflexivity |].
  cbn [plot.band_color plot.band_label].
  repeat split; try reflexivity; discriminate.
Qed.

(** C5, amended. For every render, the band at index 0 is assigned the
    colour "#4472c4" with the label "Fire sale!" (most blue) and the band at
    index 8 the colour "#c00200" with the label "Maximum bubble territory"
    (most red); the nine bands 0..8 take the entries of the palette
    [COLORS_LABELS] in reverse order. *)
Theorem band_palette_reversed (ydata : list R) (band_width : R) :
  band_palette ydata band_width 0 = Some ("#4472c4", "Fire sale!")%string /\
  band_palette ydata band_width 8
  = Some ("#c00200", "Maximum bubble territory")%string /\
  map (band_palette ydata band_width) (range plot.NUM_BANDS)
  = map Some (rev plot.COLORS_LABELS).
Proof.
  split; [reflexivity |]. split; reflexivity.
Qed.

(** ** Date extension *)

Lemma fold_left_max_spec (rest : list Z) (d : Z) :
  let m := fold_left Z.max rest d in
  In m (d :: rest) /\ Forall (fun e => (e <= m)%Z) (d :: rest).
Proof.
  revert d. induction rest as [| e rest IH]; intros d; cbn.
  - split; [now left |]. constructor; [lia | constructor].
  - destruct (IH (Z.max d e)) as [Hin Hall]. cbn in Hin, Hall.
    inversion Hall as [| ? ? Hhd Htl]; subst.
    split.
    + destruct Hin as [Hm | Hin].
      * destruct (Z.max_spec d e) as [[_ Hmax] | [_ Hmax]];
          [right; left | left]; congruence.
      * right; right; exact Hin.
    + constructor; [lia |]. constructor; [lia | exact Htl].
Qed.

Lemma series_max_spec (s : list Z) :
  s <> [] ->
  exists m, series_max s = Some m /\ In m s /\ Forall (fun e => (e <= m)%Z) s.
Proof.
  destruct s as [| d rest]; [congruence |]. intros _.
  exists (fold_left Z.max rest d). split; [reflexivity |].
  apply fold_left_max_spec.
Qed.

Lemma last_nonempty_default (A : Type) (l : list A) (d d' : A) :
  l <> [] -> last l d = last l d'.
Proof.
  induction l as [| a l IH]; [congruence |]. intros _.
  destruct l as [| b l']; [reflexivity |].
  change (last (b :: l') d = last (b :: l') d').
  apply IH. discriminate.
Qed.

Lemma fold_left_max_chronological (rest : list Z) (d : Z) :
  chronological (d :: rest) = true ->
  fold_left Z.max rest d = last (d :: rest) d.
Proof.
  revert d. induction rest as [| e rest IH]; intros d Hsorted.
  - reflexivity.
  - cbn [chronological] in Hsorted. apply andb_prop in Hsorted.
    destruct Hsorted as [Hle Hrest]. apply Z.leb_le in Hle.
    cbn [fold_left]. rewrite Z.max_r by exact Hle.
    rewrite (IH e Hrest).
    change (last (e :: rest) e = last (e :: rest) d).
    apply last_nonempty_default. discriminate.
Qed.

Lemma series_max_chronological (s : list Z) (dflt : Z) :
  s <> [] -> chronological s = true -> series_max s = Some (last s dflt).
Proof.
  destruct s as [| d rest]; [congruence |]. intros _ Hsorted.
  unfold series_max. rewrite (fold_left_max_chronological rest d Hsorted).
  f_equal. apply last_nonempty_default. discriminate.
Qed.

Lemma extend_dates_empty (months : Z) :
  plot.extend_dates [] months = Raise ValueError.
Proof. reflexivity. Qed.

Lemma extend_dates_ok (raw_data : DataFrame) (months : Z) :
  raw_data <> [] -> (0 <= months)%Z ->
  exists last_date,
    series_max (col_Date raw_data) = Some last_date /\
    plot.extend_dates raw_data months
    = Ok (col_Date raw_data
          ++ map (fun k => (last_date + 1 + Z.of_nat k)%Z)
                 (seq 0 (Z.to_nat (months * 30)))).
Proof.
  intros Hne Hmonths.
  destruct (@series_max_spec (col_Date raw_data)) as (m & Hmax & _).
  { destruct raw_data; [congruence | discriminate]. }
  exists m. split; [exact Hmax |].
  unfold plot.extend_dates. rewrite Hmax. cbn [option_map date_range].
  destruct (Z.ltb_spec (months * 30) 0) as [Hneg | _]; [lia |].
  reflexivity.
Qed.

(** C6. For every non-empty input series, date extension with months = 9
    returns the original dates followed by exactly 9 * 30 = 270 new dates;
    the first new date is the day after the last original date (the latest
    one, which is the final one of a series in chronological order) and
    every further new date is one day after its predecessor. *)
Theorem extend_dates_appends_270_days (raw_data : DataFrame) :
  raw_data <> [] ->
  exists last_date appended,
    series_max (col_Date raw_data) = Some last_date /\
    In last_date (col_Date raw_data) /\
    Forall (fun d => (d <= last_date)%Z) (col_Date raw_data) /\
    (chronological (col_Date raw_data) = true ->
     last (col_Date raw_data) 0%Z = last_date) /\
    plot.extend_dates raw_data 9 = Ok (col_Date raw_data ++ appended) /\
    length appended = (9 * 30)%nat /\
    nth_error appended 0 = Some (last_date + 1)%Z /\
    forall k, (k + 1 < 270)%nat ->
      exists d, nth_error appended k = Some d /\
                nth_error appended (k + 1) = Some (d + 1)%Z.
Proof.
  intros Hne.
  assert (Hdates : col_Date raw_data <> []).
  { destruct raw_data; [congruence | discriminate]. }
  destruct (series_max_spec Hdates) as (m & Hmax & Hin & Hall).
  destruct (@extend_dates_ok raw_data 9 Hne) as (m' & Hmax' & Hext); [lia |].
  assert (m' = m) by congruence. subst m'.
  exists m. eexists.
  split; [exact Hmax |]. split; [exact Hin |]. split; [exact Hall |].
  split.
  { intros Hsorted.
    rewrite (series_max_chronological 0%Z Hdates Hsorted) in Hmax.
    congruence. }
  split; [exact Hext |].
  split; [now rewrite length_map, length_seq |].
  split.
  { rewrite nth_error_map, nth_error_seq.
    change (0 <? Z.to_nat (9 * 30))%nat with true.
    cbn [option_map Nat.add]. f_equal. lia. }
  intros k Hk. exists (m + 1 + Z.of_nat k)%Z.
  rewrite !nth_error_map, !nth_error_seq.
  change (Z.to_nat (9 * 30)) with 270%nat.
  destruct (Nat.ltb_spec k 270) as [_ | Hge]; [| lia].
  destruct (Nat.ltb_spec (k + 1) 270) as [_ | Hge]; [| lia].
  cbn [option_map]. split; [reflexivity |]. f_equal. lia.
Qed.

Lemma extend_dates_appends_270_days_witness :
  [ {| Date := 10; Value := 100 |}; {| Date := 11; Value := 101 |} ] <> [] /\
  exists last_date appended,
    series_max (col_Date [ {| Date := 10; Value := 100 |};
                           {| Date := 11; Value := 101 |} ])
    = Some last_date /\
    In last_date (col_Date [ {| Date := 10; Value := 100 |};
                             {| Date := 11; Value := 101 |} ]) /\
    Forall (fun d => (d <= last_date)%Z)
           (col_Date [ {| Date := 10; Value := 100 |};
                       {| Date := 11; Value := 101 |} ]) /\
    (chronological (col_Date [ {| Date := 10; Value := 100 |};
                               {| Date := 11; Value := 101 |} ]) = true ->
     last (col_Date [ {| Date := 10; Value := 100 |};
                      {| Date := 11; Value := 101 |} ]) 0%Z = last_date) /\
    plot.extend_dates [ {| Date := 10; Value := 100 |};
                        {| Date := 11; Value := 101 |} ] 9
    = Ok (col_Date [ {| Date := 10; Value := 100 |};
                     {| Date := 11; Value := 101 |} ] ++ appended) /\
    length appended = (9 * 30)%nat /\
    nth_error appended 0 = Some (last_date + 1)%Z /\
    forall k, (k + 1 < 270)%nat ->
      exists d, nth_error appended k = Some d /\
                nth_error appended (k + 1) = Some (d + 1)%Z.
Proof.
  split; [discriminate |].
  apply (@extend_dates_appends_270_days
           [ {| Date := 10; Value := 100 |}; {| Date := 11; Value := 101 |} ]).
  discriminate.
Defined.

(** The chart cannot be extended from an empty series: pandas has no
    latest date to start from. *)
Lemma plot_rainbow_empty (fig : go.Figure) (popt : R * R * R)
    (num_bands : Z) (band_width : R) :
  plot.plot_rainbow fig [] popt num_bands band_width = Raise ValueError.
Proof. reflexivity. Qed.

(** C7. For every (non-empty) input series of length n, the numeric index
    over which band generation evaluates the fitted curve is 1, 2, ...,
    n + 270 over the original dates followed by the extended ones: on the
    original dates it is the index of the fit, the extended dates continue
    it with n + 1, ..., n + 270, and the curve is a*ln(x+b)+c at each
    index x. *)
Theorem extended_index_continues_fit_index (raw_data : DataFrame) (a b c : R) :
  raw_data <> [] ->
  exists extended_dates,
    plot.extend_dates raw_data plot.EXTEND_MONTHS = Ok extended_dates /\
    firstn (length raw_data) extended_dates = col_Date raw_data /\
    plot.extended_xdata extended_dates
    = map Z.of_nat (seq 1 (length raw_data + 270)) /\
    firstn (length raw_data) (plot.extended_xdata extended_dates)
    = data.fit_xdata raw_data /\
    skipn (length raw_data) (plot.extended_xdata extended_dates)
    = map Z.of_nat (seq (length raw_data + 1) 270) /\
    plot.extended_fitted_ydata extended_dates (a, b, c)
    = map (fun xi => (a * ln (IZR xi + b) + c)%R)
          (map Z.of_nat (seq 1 (length raw_data + 270))).
Proof.
  intros Hne.
  destruct (@extend_dates_ok raw_data plot.EXTEND_MONTHS Hne)
    as (m & _ & Hext); [unfold plot.EXTEND_MONTHS; lia |].
  eexists. split; [exact Hext |].
  set (appended := map _ (seq 0 _)).
  assert (Hlen : length (col_Date raw_data ++ appended)
                 = (length raw_data + 270)%nat).
  { unfold appended, col_Date.
    now rewrite length_app, !length_map, length_seq. }
  assert (Hcol : length (col_Date raw_data) = length raw_data)
    by apply length_map.
  split.
  { rewrite firstn_app, <- Hcol, firstn_all, Nat.sub_diag. cbn [firstn].
    apply app_nil_r. }
  rewrite extended_xdata_seq, Hlen.
  split; [reflexivity |].
  split.
  { rewrite firstn_map, seq_app, firstn_app, length_seq, Nat.sub_diag.
    rewrite firstn_all2 by (rewrite length_seq; lia).
    cbn [firstn]. rewrite app_nil_r.
    unfold data.fit_xdata, range.
    rewrite Nat2Z.id, map_map, <- seq_shift, map_map.
    apply map_ext. intros k. lia. }
  split.
  { rewrite skipn_map, skipn_seq. do 2 f_equal; lia. }
  unfold plot.extended_fitted_ydata. rewrite extended_xdata_seq, Hlen.
  reflexivity.
Qed.

Lemma extended_index_continues_fit_index_witness :
  [ {| Date := 10; Value := 100 |}; {| Date := 11; Value := 101 |} ] <> [] /\
  exists extended_dates,
    plot.extend_dates [ {| Date := 10; Value := 100 |};
                        {| Date := 11; Value := 101 |} ] plot.EXTEND_MONTHS
    = Ok extended_dates /\
    firstn 2 extended_dates = [10; 11]%Z /\
    plot.extended_xdata extended_dates = map Z.of_nat (seq 1 (2 + 270)) /\
    firstn 2 (plot.extended_xdata extended_dates)
    = data.fit_xdata [ {| Date := 10; Value := 100 |};
                       {| Date := 11; Value := 101 |} ] /\
    skipn 2 (plot.extended_xdata extended_dates)
    = map Z.of_nat (seq (2 + 1) 270) /\
    plot.extended_fitted_ydata extended_dates (2, 1, 3)%R
    = map (fun xi => (2 * ln (IZR xi + 1) + 3)%R)
          (map Z.of_nat (seq 1 (2 + 270))).
Proof.
  split; [discriminate |].
  apply (@extended_index_continues_fit_index
           [ {| Date := 10; Value := 100 |}; {| Date := 11; Value := 101 |} ]
           2 1 3).
  discriminate.
Defined.

(** ** The loop of [plot_rainbow] *)

Lemma draw_band_data (extended_dates : list Z) (fig : go.Figure)
    (b : plot.Band) :
  go.data (plot.draw_band extended_dates fig b)
  = go.data fig ++ band_traces extended_dates b.
Proof.
  unfold band_traces, plot.draw_band, go.add_trace. cbn [go.data app].
  now rewrite <- app_assoc.
Qed.

Lemma range_bounds (n i : Z) : In i (range n) -> (0 <= i < n)%Z.
Proof.
  unfold range. intros Hin. apply in_map_iff in Hin.
  destruct Hin as (k & <- & Hk). apply in_seq in Hk. lia.
Qed.

(** Over band indices inside the palette the loop runs to its end and
    appends the traces of the bands in order. *)
Lemma for_each_band (extended_dates : list Z) (ydata : list R)
    (band_width : R) (indices : list Z) :
  Forall (fun i => (0 <= i < 9)%Z) indices ->
  forall fig,
  exists bands,
    Forall2 (fun i b => plot.rainbow_band ydata band_width i = Ok b)
            indices bands /\
    exists fig',
      for_each (fun fig i =>
                  b <- plot.rainbow_band ydata band_width i ;;
                  Ok (plot.draw_band extended_dates fig b))
               indices fig = Ok fig' /\
      go.data fig'
      = go.data fig ++ flat_map (band_traces extended_dates) bands.
Proof.
  induction 1 as [| i indices Hi _ IH]; intros fig.
  - exists []. split; [constructor |]. exists fig. split; [reflexivity |].
    cbn [flat_map]. now rewrite app_nil_r.
  - destruct (rainbow_band_ok ydata band_width Hi)
      as (color & label & _ & Hband).
    set (b := {| plot.lower_bound := _ |}) in Hband.
    destruct (IH (plot.draw_band extended_dates fig b))
      as (bands & Hbands & fig' & Hrun & Hdata).
    exists (b :: bands). split; [constructor; assumption |].
    exists fig'. split.
    + cbn [for_each]. rewrite Hband. cbn [bind]. exact Hrun.
    + rewrite Hdata, draw_band_data. cbn [flat_map].
      now rewrite app_assoc.
Qed.

(** With at most nine bands, [plot_rainbow] succeeds on a non-empty series
    and appends the traces of bands [0 .. num_bands - 1] in order. *)
Lemma plot_rainbow_ok (fig : go.Figure) (raw_data : DataFrame)
    (popt : R * R * R) (num_bands : Z) (band_width : R) :
  raw_data <> [] -> (num_bands <= 9)%Z ->
  exists extended_dates bands fig',
    plot.extend_dates raw_data plot.EXTEND_MONTHS = Ok extended_dates /\
    length extended_dates = (length raw_data + 270)%nat /\
    plot.plot_rainbow fig raw_data popt num_bands band_width = Ok fig' /\
    go.data fig' = go.data fig ++ flat_map (band_traces extended_dates) bands /\
    Forall2 (fun i b =>
               plot.rainbow_band
                 (plot.extended_fitted_ydata extended_dates popt)
                 band_width i = Ok b)
            (range num_bands) bands.
Proof.
  intros Hne Hnum.
  destruct (@extend_dates_ok raw_data plot.EXTEND_MONTHS Hne)
    as (m & _ & Hext); [unfold plot.EXTEND_MONTHS; lia |].
  set (extended_dates := col_Date raw_data ++ _) in Hext.
  assert (Hlen : length extended_dates = (length raw_data + 270)%nat).
  { unfold extended_dates, col_Date.
    now rewrite length_app, !length_map, length_seq. }
  destruct (@for_each_band extended_dates
              (plot.extended_fitted_ydata extended_dates popt) band_width
              (range num_bands)) with (fig := fig)
    as (bands & Hbands & fig' & Hrun & Hdata).
  { apply Forall_forall. intros i Hin. apply range_bounds in Hin. lia. }
  exists extended_dates, bands, fig'.
  split; [exact Hext |]. split; [exact Hlen |].
  split; [| split; [exact Hdata | exact Hbands]].
  unfold plot.plot_rainbow. rewrite Hext. cbn [bind]. exact Hrun.
Qed.

(** A generated band holds one value per entry of the fitted curve. *)
Lemma rainbow_band_lengths (ydata : list R) (band_width : R) (i : Z)
    (b : plot.Band) :
  plot.rainbow_band ydata band_width i = Ok b ->
  length (plot.lower_bound b) = length ydata /\
  length (plot.upper_bound b) = length ydata.
Proof.
  unfold plot.rainbow_band.
  destruct (py_index _ i); cbn [bind]; [| discriminate].
  destruct (py_index _ i); cbn [bind]; [| discriminate].
  intros [= <-]. cbn [plot.lower_bound plot.upper_bound].
  now rewrite !length_map.
Qed.

Lemma length_band_traces (extended_dates : list Z) (bands : list plot.Band) :
  length (flat_map (band_traces extended_dates) bands)
  = (2 * length bands)%nat.
Proof.
  induction bands as [| b bands IH]; [reflexivity |].
  cbn [flat_map]. rewrite length_app, IH. cbn [length]. 
  change (length (band_traces extended_dates b)) with 2%nat. lia.
Qed.

Lemma Forall2_nth_error_l (A B : Type) (P : A -> B -> Prop)
    (l : list A) (l' : list B) (k : nat) (a : A) :
  Forall2 P l l' -> nth_error l k = Some a ->
  exists b, nth_error l' k = Some b /\ P a b.
Proof.
  intros Hall. revert k. induction Hall as [| a0 b0 l l' Hab _ IH]; intros k.
  - destruct k; discriminate.
  - destruct k as [| k]; cbn [nth_error].
    + intros [= ->]. now exists b0.
    + apply IH.
Qed.

Lemma nth_error_band_traces (extended_dates : list Z)
    (bands : list plot.Band) (k : nat) (b : plot.Band) :
  nth_error bands k = Some b ->
  exists upper lower,
    band_traces extended_dates b = [upper; lower] /\
    nth_error (flat_map (band_traces extended_dates) bands) (2 * k)
    = Some upper /\
    nth_error (flat_map (band_traces extended_dates) bands) (2 * k + 1)
    = Some lower.
Proof.
  revert k. induction bands as [| b0 bands IH]; intros k.
  - destruct k; discriminate.
  - destruct k as [| k]; cbn [nth_error].
    + intros [= ->]. do 2 eexists. split; [reflexivity |].
      split; reflexivity.
    + intros Hk. destruct (IH k Hk) as (upper & lower & Hb & Hup & Hlo).
      exists upper, lower. split; [exact Hb |].
      replace (2 * S k)%nat with (S (S (2 * k))) by lia.
      replace (S (S (2 * k)) + 1)%nat with (S (S (2 * k + 1))) by lia.
      split; assumption.
Qed.

(** C8. For every (non-empty) input series of length n and every fit
    parameters, band generation succeeds and adds exactly 9 bands to the
    figure, two traces each and in order (18 traces after the ones already
    there): the upper and the lower bound of band k, both over the n + 270
    extended dates and both holding one value per extended date. *)
Theorem plot_rainbow_nine_bands (fig : go.Figure) (raw_data : DataFrame)
    (popt : R * R * R) :
  raw_data <> [] ->
  exists extended_dates fig',
    plot.extend_dates raw_data plot.EXTEND_MONTHS = Ok extended_dates /\
    length extended_dates = (length raw_data + 270)%nat /\
    plot.plot_rainbow fig raw_data popt plot.NUM_BANDS plot.BAND_WIDTH
    = Ok fig' /\
    length (go.data fig') = (length (go.data fig) + 2 * 9)%nat /\
    firstn (length (go.data fig)) (go.data fig') = go.data fig /\
    forall k, (k < 9)%nat ->
      exists band upper lower,
        plot.rainbow_band (plot.extended_fitted_ydata extended_dates popt)
                          plot.BAND_WIDTH (Z.of_nat k) = Ok band /\
        nth_error (go.data fig') (length (go.data fig) + 2 * k) = Some upper /\
        nth_error (go.data fig') (length (go.data fig) + 2 * k + 1)
        = Some lower /\
        go.x upper = extended_dates /\
        go.y upper = plot.upper_bound band /\
        go.x lower = extended_dates /\
        go.y lower = plot.lower_bound band /\
        length (go.y upper) = (length raw_data + 270)%nat /\
        length (go.y lower) = (length raw_data + 270)%nat.
Proof.
  intros Hne.
  destruct (@plot_rainbow_ok fig raw_data popt plot.NUM_BANDS plot.BAND_WIDTH
                             Hne)
    as (extended_dates & bands & fig' & Hext & Hlen & Hrun & Hdata & Hbands);
    [unfold plot.NUM_BANDS; lia |].
  change plot.NUM_BANDS with 9%Z in Hbands.
  assert (Hnine : length bands = 9%nat).
  { apply Forall2_length in Hbands. rewrite <- Hbands, length_range.
    reflexivity. }
  exists extended_dates, fig'.
  split; [exact Hext |]. split; [exact Hlen |]. split; [exact Hrun |].
  split.
  { rewrite Hdata, length_app, length_band_traces, Hnine. reflexivity. }
  split.
  { rewrite Hdata, firstn_app, firstn_all, Nat.sub_diag. cbn [firstn].
    apply app_nil_r. }
  intros k Hk.
  assert (Hnth : nth_error (range 9) k = Some (Z.of_nat k)).
  { apply nth_error_range. lia. }
  destruct (Forall2_nth_error_l _ Hbands Hnth) as (band & Hband & Hgen).
  destruct (nth_error_band_traces extended_dates bands k Hband)
    as (upper & lower & Htraces & Hupper & Hlower).
  destruct (rainbow_band_lengths _ _ _ Hgen) as [Hlo Hup].
  rewrite length_extended_fitted_ydata, Hlen in Hlo, Hup.
  exists band, upper, lower.
  split; [exact Hgen |].
  rewrite Hdata.
  split.
  { rewrite nth_error_app2 by lia.
    now replace (length (go.data fig) + 2 * k - length (go.data fig))%nat
      with (2 * k)%nat by lia. }
  split.
  { rewrite nth_error_app2 by lia.
    now replace (length (go.data fig) + 2 * k + 1 - length (go.data fig))%nat
      with (2 * k + 1)%nat by lia. }
  unfold band_traces, plot.draw_band, go.add_trace in Htraces.
  cbn [go.data plot.make_subplots app] in Htraces.
  injection Htraces as <- <-. cbn [go.x go.y].
  repeat split; assumption.
Qed.

Lemma plot_rainbow_nine_bands_witness :
  [ {| Date := 10; Value := 100 |}; {| Date := 11; Value := 101 |} ] <> [] /\
  exists extended_dates fig',
    plot.extend_dates [ {| Date := 10; Value := 100 |};
                        {| Date := 11; Value := 101 |} ] plot.EXTEND_MONTHS
    = Ok extended_dates /\
    length extended_dates = (2 + 270)%nat /\
    plot.plot_rainbow plot.make_subplots
                      [ {| Date := 10; Value := 100 |};
                        {| Date := 11; Value := 101 |} ]
                      (2, 1, 3)%R plot.NUM_BANDS plot.BAND_WIDTH
    = Ok fig' /\
    length (go.data fig') = (0 + 2 * 9)%nat /\
    firstn 0 (go.data fig') = [] /\
    forall k, (k < 9)%nat ->
      exists band upper lower,
        plot.rainbow_band
          (plot.extended_fitted_ydata extended_dates (2, 1, 3)%R)
          plot.BAND_WIDTH (Z.of_nat k) = Ok band /\
        nth_error (go.data fig') (0 + 2 * k) = Some upper /\
        nth_error (go.data fig') (0 + 2 * k + 1) = Some lower /\
        go.x upper = extended_dates /\
        go.y upper = plot.upper_bound band /\
        go.x lower = extended_dates /\
        go.y lower = plot.lower_bound band /\
        length (go.y upper) = (2 + 270)%nat /\
        length (go.y lower) = (2 + 270)%nat.
Proof.
  split; [discriminate |].
  apply (@plot_rainbow_nine_bands plot.make_subplots
           [ {| Date := 10; Value := 100 |}; {| Date := 11; Value := 101 |} ]
           (2, 1, 3)%R).
  discriminate.
Defined.

(** X3. In the figure: after [plot_rainbow] on a non-empty series, trace
    [2 i] of the traces it added is the upper bound of band [i] and trace
    [2 i + 1] its lower bound, filled up to the trace before it ("tonexty")
    in the band's colour and named by its label. *)
Lemma plot_rainbow_traces (fig : go.Figure) (raw_data : DataFrame)
    (a b c : R) (i x : Z) :
  raw_data <> [] ->
  (0 <= i < 9)%Z ->
  (1 <= x <= Z.of_nat (length raw_data + 270))%Z ->
  exists fig' upper lower color label,
    plot.plot_rainbow fig raw_data (a, b, c) plot.NUM_BANDS plot.BAND_WIDTH
    = Ok fig' /\
    nth_error (go.data fig') (length (go.data fig) + 2 * Z.to_nat i)
    = Some upper /\
    nth_error (go.data fig') (length (go.data fig) + (2 * Z.to_nat i + 1))
    = Some lower /\
    at_index (go.y upper) x
    = Some (exp (a * ln (IZR x + b) + c + (IZR i - 1.5) * 0.3))%R /\
    at_index (go.y lower) x
    = Some (exp (a * ln (IZR x + b) + c + (IZR i - 1.5) * 0.3 - 0.3))%R /\
    nth_error plot.COLORS_LABELS (Z.to_nat (8 - i)) = Some (color, label) /\
    go.fillcolor lower = Some color /\ go.name lower = Some label /\
    go.fill lower = Some "tonexty"%string /\ go.fill upper = None.
Proof.
  intros Hne Hi Hx.
  destruct (@plot_rainbow_ok fig raw_data (a, b, c) plot.NUM_BANDS
                             plot.BAND_WIDTH Hne)
    as (ed & bands & fig' & _ & Hlen & Hrun & Hdata & Hbands);
    [unfold plot.NUM_BANDS; lia |].
  change plot.NUM_BANDS with 9%Z in Hbands.
  assert (Hnth : nth_error (range 9) (Z.to_nat i) = Some i).
  { rewrite nth_error_range by lia. f_equal. lia. }
  destruct (Forall2_nth_error_l _ Hbands Hnth) as (band & Hband & Hgen).
  destruct (@rainbow_band_at_index a b c ed plot.BAND_WIDTH i x Hi)
    as (band' & Hgen' & Hup & Hlo); [rewrite Hlen; exact Hx |].
  assert (band' = band) by congruence. subst band'.
  destruct (rainbow_band_ok (plot.extended_fitted_ydata ed (a, b, c))
                            plot.BAND_WIDTH Hi)
    as (color & label & Hpal & Hshape).
  destruct (nth_error_band_traces ed bands (Z.to_nat i) Hband)
    as (upper & lower & Htr & Hnup & Hnlo).
  exists fig', upper, lower, color, label.
  split; [exact Hrun |].
  rewrite Hdata.
  split; [rewrite nth_error_app2 by lia;
          now replace (length (go.data fig) + 2 * Z.to_nat i
                       - length (go.data fig))%nat
                with (2 * Z.to_nat i)%nat by lia |].
  split; [rewrite nth_error_app2 by lia;
          now replace (length (go.data fig) + (2 * Z.to_nat i + 1)
                       - length (go.data fig))%nat
                with (2 * Z.to_nat i + 1)%nat by lia |].
  unfold band_traces, plot.draw_band, go.add_trace in Htr.
  cbn [go.data plot.make_subplots app] in Htr.
  injection Htr as <- <-. cbn [go.y go.fillcolor go.name go.fill].
  split; [exact Hup |]. split; [exact Hlo |]. split; [exact Hpal |].
  rewrite Hshape in Hgen. injection Hgen as <-.
  cbn [plot.band_color plot.band_label]. repeat split.
Qed.

(** The price trace shows the input values unchanged. *)
Lemma plot_price_values (fig : go.Figure) (raw_data : DataFrame) :
  exists trace,
    go.data (plot.plot_price fig raw_data) = go.data fig ++ [trace] /\
    go.x trace = col_Date raw_data /\ go.y trace = col_Value raw_data.
Proof. eexists. split; [reflexivity |]. split; reflexivity. Qed.

(** ** Input validation *)

Lemma non_positive_spec (v : R) : data.non_positive v = true <-> (v <= 0)%R.
Proof.
  unfold data.non_positive. destruct (Rle_dec v 0); split; intros H;
    try reflexivity; try assumption; try discriminate; contradiction.
Qed.

Lemma existsb_non_positive (series : DataFrame) :
  existsb data.non_positive (col_Value series) = true
  <-> Exists (fun r => (Value r <= 0)%R) series.
Proof.
  rewrite existsb_exists, Exists_exists. unfold col_Value. split.
  - intros (v & Hin & Hv). apply in_map_iff in Hin.
    destruct Hin as (r & <- & Hr). exists r. split; [exact Hr |].
    now apply non_positive_spec.
  - intros (r & Hr & Hv). exists (Value r). split; [now apply in_map |].
    now apply non_positive_spec.
Qed.

Section validation.

Variable curve_fit : list Z -> list R -> option (R * R * R).

(** The fit rejects exactly the series it cannot take the logarithm of
    or that are too short. *)
Lemma fit_invalid_input (series : DataFrame) :
  data.fit curve_fit series = Raise InvalidInputError
  <-> (length series < 3)%nat \/ Exists (fun r => (Value r <= 0)%R) series.
Proof.
  unfold data.fit.
  destruct (Nat.ltb_spec (length series) 3) as [Hshort | Hlong].
  - split; [now left | reflexivity].
  - destruct (existsb data.non_positive (col_Value series)) eqn:Hbad.
    + apply existsb_non_positive in Hbad. split; [now right | reflexivity].
    + split.
      * destruct (curve_fit _ _); discriminate.
      * intros [Hshort | Hex]; [lia |].
        apply existsb_non_positive in Hex. congruence.
Qed.

(** Once the series is fitted, drawing cannot fail. *)
Lemma create_plot_ok (raw_data : DataFrame) (popt : R * R * R) :
  raw_data <> [] -> exists fig, plot.create_plot raw_data popt = Ok fig.
Proof.
  intros Hne. unfold plot.create_plot.
  destruct (@plot_rainbow_ok plot.make_subplots raw_data popt
                             plot.NUM_BANDS plot.BAND_WIDTH Hne)
    as (_ & _ & fig' & _ & _ & Hrun & _); [unfold plot.NUM_BANDS; lia |].
  rewrite Hrun. cbn [bind]. eexists. reflexivity.
Qed.

(** C9. The pipeline raises InvalidInputError exactly when the input price
    series is empty, too short to fit the 3-parameter model (fewer than 3
    points), or contains a value less than or equal to 0; in particular a
    series with a price of exactly 0 raises InvalidInputError, and the
    error of the fit is the result of the whole pipeline. *)
Theorem main_invalid_input (csv : DataFrame) :
  (main.main curve_fit csv = Raise InvalidInputError
   <-> csv = [] \/ (length csv < 3)%nat
       \/ Exists (fun r => (Value r <= 0)%R) csv) /\
  (forall r, In r csv -> Value r = 0%R ->
             main.main curve_fit csv = Raise InvalidInputError) /\
  (data.fit curve_fit csv = Raise InvalidInputError ->
   main.main curve_fit csv = Raise InvalidInputError).
Proof.
  assert (Hprop : data.fit curve_fit csv = Raise InvalidInputError ->
                  main.main curve_fit csv = Raise InvalidInputError).
  { intros Hfit. unfold main.main, data.get_data. now rewrite Hfit. }
  assert (Hiff : main.main curve_fit csv = Raise InvalidInputError
                 <-> csv = [] \/ (length csv < 3)%nat
                     \/ Exists (fun r => (Value r <= 0)%R) csv).
  { split.
    - intros Hmain. right. apply fit_invalid_input.
      unfold main.main, data.get_data in Hmain.
      destruct (data.fit curve_fit csv) as [popt | e] eqn:Hfit.
      + cbn [bind] in Hmain.
        assert (Hne : csv <> []).
        { intros ->. unfold data.fit in Hfit. cbn in Hfit. discriminate. }
        destruct (create_plot_ok popt Hne) as (fig & Hfig). congruence.
      + cbn [bind] in Hmain. congruence.
    - intros Hbad. apply Hprop, fit_invalid_input.
      destruct Hbad as [-> | [Hshort | Hex]];
        [left; cbn; lia | now left | now right]. }
  split; [exact Hiff |]. split; [| exact Hprop].
  intros r Hin Hzero. apply Hiff. right; right.
  apply Exists_exists. exists r. split; [exact Hin |]. lra.
Qed.

(** A series with a price of exactly 0 on its second day is rejected. *)
Example main_zero_price :
  main.main curve_fit
    [ {| Date := 10; Value := 100 |}; {| Date := 11; Value := 0 |};
      {| Date := 12; Value := 102 |} ]
  = Raise InvalidInputError.
Proof.
  unfold main.main, data.get_data, data.fit.
  cbn [length Nat.ltb Nat.leb col_Value map Value existsb].
  unfold data.non_positive.
  destruct (Rle_dec 100 0) as [Hle | _]; [lra |].
  destruct (Rle_dec 0 0) as [_ | Hnle]; [reflexivity | lra].
Qed.

(** A valid series on which the solver converges yields the chart: the
    eighteen band traces followed by the price trace. *)
Lemma main_ok (csv : DataFrame) (popt : R * R * R) :
  (3 <= length csv)%nat ->
  Forall (fun r => (0 < Value r)%R) csv ->
  curve_fit (data.fit_xdata csv) (map ln (col_Value csv)) = Some popt ->
  exists fig,
    main.main curve_fit csv = Ok fig /\ length (go.data fig) = 19%nat.
Proof.
  intros Hlen Hpos Hfit.
  assert (Hne : csv <> []) by (intros ->; cbn in Hlen; lia).
  assert (Hok : data.fit curve_fit csv = Ok popt).
  { unfold data.fit.
    destruct (Nat.ltb_spec (length csv) 3) as [Hshort | _]; [lia |].
    destruct (existsb data.non_positive (col_Value csv)) eqn:Hbad.
    - apply existsb_non_positive, Exists_exists in Hbad.
      destruct Hbad as (r & Hin & Hr).
      rewrite Forall_forall in Hpos. specialize (Hpos r Hin). lra.
    - now rewrite Hfit. }
  unfold main.main, data.get_data. rewrite Hok. cbn [bind].
  unfold plot.create_plot.
  destruct (@plot_rainbow_ok plot.make_subplots csv popt
                             plot.NUM_BANDS plot.BAND_WIDTH Hne)
    as (ed & bands & fig' & _ & _ & Hrun & Hdata & Hbands);
    [unfold plot.NUM_BANDS; lia |].
  assert (Hnine : length bands = 9%nat).
  { apply Forall2_length in Hbands. rewrite <- Hbands, length_range.
    reflexivity. }
  rewrite Hrun. cbn [bind]. eexists. split; [reflexivity |].
  unfold plot.plot_price, go.add_trace. cbn [go.data].
  rewrite length_app, Hdata, length_app, length_band_traces.
  cbn [length go.data plot.make_subplots]. lia.
Qed.

End validation.

(** * Further properties of the plotting code *)

(** ** Width and stacking of the bands *)





Lemma plot_rainbow_traces_witness :
  [ {| Date := 10; Value := 100 |}; {| Date := 11; Value := 101 |} ] <> [] /\
  (0 <= 4 < 9)%Z /\ (1 <= 200 <= Z.of_nat (2 + 270))%Z /\
  exists fig' upper lower color label,
    plot.plot_rainbow plot.make_subplots
                      [ {| Date := 10; Value := 100 |};
                        {| Date := 11; Value := 101 |} ]
                      (2, 1, 3)%R plot.NUM_BANDS plot.BAND_WIDTH
    = Ok fig' /\
    nth_error (go.data fig') (0 + 2 * Z.to_nat 4) = Some upper /\
    nth_error (go.data fig') (0 + (2 * Z.to_nat 4 + 1)) = Some lower /\
    at_index (go.y upper) 200
    = Some (exp (2 * ln (IZR 200 + 1) + 3 + (IZR 4 - 1.5) * 0.3))%R /\
    at_index (go.y lower) 200
    = Some (exp (2 * ln (IZR 200 + 1) + 3 + (IZR 4 - 1.5) * 0.3 - 0.3))%R /\
    nth_error plot.COLORS_LABELS (Z.to_nat (8 - 4)) = Some (color, label) /\
    go.fillcolor lower = Some color /\ go.name lower = Some label /\
    go.fill lower = Some "tonexty"%string /\ go.fill upper = None.
Proof.
  split; [discriminate |]. split; [lia |]. split; [cbn; lia |].
  apply (@plot_rainbow_traces plot.make_subplots
           [ {| Date := 10; Value := 100 |}; {| Date := 11; Value := 101 |} ]
           2 1 3 4 200); [discriminate | lia | cbn; lia].
Defined.

(** ** The number of bands *)

Lemma for_each_app (S I : Type) (body : S -> I -> result S)
    (xs ys : list I) (s : S) :
  for_each body (xs ++ ys) s = (s' <- for_each body xs s ;; for_each body ys s').
Proof.
  revert s. induction xs as [| i xs IH]; intros s; [reflexivity |].
  cbn [app for_each]. destruct (body s i) as [s' | e]; cbn [bind];
    [apply IH | reflexivity].
Qed.

(** X4. On a non-empty series and with at most nine bands (any band width),
    [plot_rainbow] succeeds, keeps the traces the figure already has and
    appends exactly two traces per band; with no band to draw
    (num_bands <= 0) the figure is returned unchanged. *)
Theorem plot_rainbow_appends (fig : go.Figure) (raw_data : DataFrame)
    (popt : R * R * R) (num_bands : Z) (band_width : R) :
  raw_data <> [] -> (num_bands <= 9)%Z ->
  exists fig' added,
    plot.plot_rainbow fig raw_data popt num_bands band_width = Ok fig' /\
    go.data fig' = go.data fig ++ added /\
    length added = (2 * Z.to_nat num_bands)%nat /\
    ((num_bands <= 0)%Z -> fig' = fig).
Proof.
  intros Hne Hnum.
  destruct (plot_rainbow_ok fig popt band_width Hne Hnum)
    as (ed & bands & fig' & _ & _ & Hrun & Hdata & Hbands).
  exists fig', (flat_map (band_traces ed) bands).
  assert (Hlen : length (flat_map (band_traces ed) bands)
                 = (2 * Z.to_nat num_bands)%nat).
  { rewrite length_band_traces. apply Forall2_length in Hbands.
    rewrite <- Hbands, length_range. reflexivity. }
  split; [exact Hrun |]. split; [exact Hdata |]. split; [exact Hlen |].
  intros Hnone.
  replace (Z.to_nat num_bands) with 0%nat in Hlen by lia.
  destruct (flat_map (band_traces ed) bands); [| discriminate].
  rewrite app_nil_r in Hdata.
  destruct fig as [traces], fig' as [traces']. cbn in Hdata. now subst.
Qed.

Lemma plot_rainbow_appends_witness :
  [ {| Date := 10; Value := 100 |}; {| Date := 11; Value := 101 |} ] <> [] /\
  (3 <= 9)%Z /\
  exists fig' added,
    plot.plot_rainbow plot.make_subplots
                      [ {| Date := 10; Value := 100 |};
                        {| Date := 11; Value := 101 |} ]
                      (2, 1, 3)%R 3 0.5%R = Ok fig' /\
    go.data fig' = go.data plot.make_subplots ++ added /\
    length added = (2 * Z.to_nat 3)%nat /\
    ((3 <= 0)%Z -> fig' = plot.make_subplots).
Proof.
  split; [discriminate |]. split; [lia |].
  apply (@plot_rainbow_appends plot.make_subplots
           [ {| Date := 10; Value := 100 |}; {| Date := 11; Value := 101 |} ]
           (2, 1, 3)%R 3 0.5%R); [discriminate | lia].
Defined.

(** X5. The palette bounds the number of bands: on a non-empty series,
    asking [plot_rainbow] for more than nine bands raises IndexError (the
    colour lookup of band 9 is out of range), whatever the band width. *)
Theorem plot_rainbow_too_many_bands (fig : go.Figure) (raw_data : DataFrame)
    (popt : R * R * R) (num_bands : Z) (band_width : R) :
  raw_data <> [] -> (9 < num_bands)%Z ->
  plot.plot_rainbow fig raw_data popt num_bands band_width = Raise IndexError.
Proof.
  intros Hne Hnum.
  destruct (@extend_dates_ok raw_data plot.EXTEND_MONTHS Hne)
    as (m & _ & Hext); [unfold plot.EXTEND_MONTHS; lia |].
  unfold plot.plot_rainbow. rewrite Hext. cbn [bind].
  set (ed := col_Date raw_data ++ _).
  set (ydata := plot.extended_fitted_ydata ed popt).
  assert (Hsplit : range num_bands
                   = range 9 ++ 9%Z :: map Z.of_nat
                                          (seq 10 (Z.to_nat num_bands - 10))).
  { unfold range.
    replace (Z.to_nat num_bands)
      with (Z.to_nat 9 + S (Z.to_nat num_bands - 10))%nat by lia.
    rewrite seq_app, map_app. cbn [seq map Nat.add].
    replace (Z.to_nat 9 + S (Z.to_nat num_bands - 10) - 10)%nat
      with (Z.to_nat num_bands - 10)%nat by lia.
    reflexivity. }
  rewrite Hsplit, for_each_app.
  destruct (@for_each_band ed ydata band_width (range 9)) with (fig := fig)
    as (bands & _ & fig' & Hrun & _).
  { apply Forall_forall. intros i Hin. now apply range_bounds in Hin. }
  rewrite Hrun. cbn [bind for_each].
  rewrite rainbow_band_past_palette by lia. reflexivity.
Qed.

Lemma plot_rainbow_too_many_bands_witness :
  [ {| Date := 10; Value := 100 |}; {| Date := 11; Value := 101 |} ] <> [] /\
  (9 < 10)%Z /\
  plot.plot_rainbow plot.make_subplots
                    [ {| Date := 10; Value := 100 |};
                      {| Date := 11; Value := 101 |} ]
                    (2, 1, 3)%R 10 plot.BAND_WIDTH = Raise IndexError.
Proof.
  split; [discriminate |]. split; [lia |].
  apply (@plot_rainbow_too_many_bands plot.make_subplots
           [ {| Date := 10; Value := 100 |}; {| Date := 11; Value := 101 |} ]
           (2, 1, 3)%R 10 plot.BAND_WIDTH); [discriminate | lia].
Defined.

(** ** What the bands depend on *)

Lemma draw_band_y (extended_dates : list Z) (fig : go.Figure) (b : plot.Band) :
  map go.y (go.data (plot.draw_band extended_dates fig b))
  = map go.y (go.data fig) ++ [plot.upper_bound b; plot.lower_bound b].
Proof.
  unfold plot.draw_band, go.add_trace. cbn [go.data].
  rewrite !map_app, <- app_assoc. reflexivity.
Qed.

Lemma extended_fitted_ydata_length_only (dates1 dates2 : list Z)
    (popt : R * R * R) :
  length dates1 = length dates2 ->
  plot.extended_fitted_ydata dates1 popt
  = plot.extended_fitted_ydata dates2 popt.
Proof.
  intros Hlen. destruct popt as [[a b] c].
  unfold plot.extended_fitted_ydata, plot.extended_xdata. now rewrite Hlen.
Qed.

(** The loop draws the same values whatever dates it draws them over. *)
Lemma for_each_band_y (dates1 dates2 : list Z) (ydata : list R)
    (band_width : R) (indices : list Z) (fig1 fig2 : go.Figure) :
  map go.y (go.data fig1) = map go.y (go.data fig2) ->
  match for_each (fun fig i =>
                    b <- plot.rainbow_band ydata band_width i ;;
                    Ok (plot.draw_band dates1 fig b)) indices fig1,
        for_each (fun fig i =>
                    b <- plot.rainbow_band ydata band_width i ;;
                    Ok (plot.draw_band dates2 fig b)) indices fig2
  with
  | Ok out1, Ok out2 => map go.y (go.data out1) = map go.y (go.data out2)
  | Raise e1, Raise e2 => e1 = e2
  | _, _ => False
  end.
Proof.
  revert fig1 fig2. induction indices as [| i indices IH]; intros fig1 fig2 Hy.
  - exact Hy.
  - cbn [for_each].
    destruct (plot.rainbow_band ydata band_width i) as [b | e]; cbn [bind].
    + apply IH. rewrite !draw_band_y. now rewrite Hy.
    + reflexivity.
Qed.

(** X6. The bands depend on the series only through its length: for two
    series with the same number of rows (whatever their dates and prices)
    [plot_rainbow] with the same parameters either draws traces with the
    same y-values for both or raises the same exception for both. *)
Theorem plot_rainbow_depends_on_length_only (fig : go.Figure)
    (raw_data1 raw_data2 : DataFrame) (popt : R * R * R) (num_bands : Z)
    (band_width : R) :
  length raw_data1 = length raw_data2 ->
  match plot.plot_rainbow fig raw_data1 popt num_bands band_width,
        plot.plot_rainbow fig raw_data2 popt num_bands band_width
  with
  | Ok out1, Ok out2 => map go.y (go.data out1) = map go.y (go.data out2)
  | Raise e1, Raise e2 => e1 = e2
  | _, _ => False
  end.
Proof.
  intros Hlen.
  destruct raw_data1 as [| r1 rest1], raw_data2 as [| r2 rest2];
    try discriminate; [reflexivity |].
  destruct (@extend_dates_ok (r1 :: rest1) plot.EXTEND_MONTHS)
    as (m1 & _ & Hext1); [discriminate | unfold plot.EXTEND_MONTHS; lia |].
  destruct (@extend_dates_ok (r2 :: rest2) plot.EXTEND_MONTHS)
    as (m2 & _ & Hext2); [discriminate | unfold plot.EXTEND_MONTHS; lia |].
  unfold plot.plot_rainbow. rewrite Hext1, Hext2. cbn [bind].
  set (dates1 := col_Date (r1 :: rest1) ++ _).
  set (dates2 := col_Date (r2 :: rest2) ++ _).
  assert (Hdates : length dates1 = length dates2).
  { unfold dates1, dates2, col_Date.
    rewrite !length_app, !length_map, !length_seq. now rewrite Hlen. }
  rewrite (extended_fitted_ydata_length_only dates1 dates2 popt Hdates).
  now apply for_each_band_y.
Qed.

Lemma plot_rainbow_depends_on_length_only_witness :
  length [ {| Date := 10; Value := 100 |}; {| Date := 11; Value := 101 |} ]
  = length [ {| Date := 500; Value := 7 |}; {| Date := 900; Value := 3 |} ] /\
  match plot.plot_rainbow plot.make_subplots
          [ {| Date := 10; Value := 100 |}; {| Date := 11; Value := 101 |} ]
          (2, 1, 3)%R plot.NUM_BANDS plot.BAND_WIDTH,
        plot.plot_rainbow plot.make_subplots
          [ {| Date := 500; Value := 7 |}; {| Date := 900; Value := 3 |} ]
          (2, 1, 3)%R plot.NUM_BANDS plot.BAND_WIDTH
  with
  | Ok out1, Ok out2 => map go.y (go.data out1) = map go.y (go.data out2)
  | Raise e1, Raise e2 => e1 = e2
  | _, _ => False
  end.
Proof.
  split; [reflexivity |].
  apply (@plot_rainbow_depends_on_length_only plot.make_subplots
           [ {| Date := 10; Value := 100 |}; {| Date := 11; Value := 101 |} ]
           [ {| Date := 500; Value := 7 |}; {| Date := 900; Value := 3 |} ]
           (2, 1, 3)%R plot.NUM_BANDS plot.BAND_WIDTH).
  reflexivity.
Defined.

(** ** The assembled chart *)

Lemma legend_app (traces1 traces2 : list go.Scatter) :
  legend {| go.data := traces1 ++ traces2 |}
  = legend {| go.data := traces1 |} ++ legend {| go.data := traces2 |}.
Proof. unfold legend. cbn [go.data]. apply flat_map_app. Qed.

Lemma legend_band_traces (extended_dates : list Z) (bands : list plot.Band) :
  legend {| go.data := flat_map (band_traces extended_dates) bands |}
  = map plot.band_label bands.
Proof.
  induction bands as [| b bands IH]; [reflexivity |].
  cbn [flat_map map]. rewrite legend_app, IH. reflexivity.
Qed.

(** The bands the loop generates over [range 9] carry the reversed
    palette. *)
Lemma generated_palette (ydata : list R) (band_width : R)
    (indices : list Z) (bands : list plot.Band) :
  Forall2 (fun i b => plot.rainbow_band ydata band_width i = Ok b)
          indices bands ->
  map (fun b => Some (plot.band_color b, plot.band_label b)) bands
  = map (band_palette ydata band_width) indices.
Proof.
  induction 1 as [| i b indices bands Hb _ IH]; [reflexivity |].
  cbn [map]. rewrite IH. unfold band_palette at 2. now rewrite Hb.
Qed.

Lemma map_Some_inj (A : Type) (l l' : list A) :
  map Some l = map Some l' -> l = l'.
Proof.
  revert l'. induction l as [| a l IH]; intros [| a' l']; try discriminate.
  - reflexivity.
  - cbn [map]. intros [= -> Htl]. f_equal. now apply IH.
Qed.

(** What [create_plot] draws on a non-empty series. *)
Lemma create_plot_data (raw_data : DataFrame) (popt : R * R * R) :
  raw_data <> [] ->
  exists extended_dates bands fig,
    plot.create_plot raw_data popt = Ok fig /\
    length extended_dates = (length raw_data + 270)%nat /\
    firstn (length raw_data) extended_dates = col_Date raw_data /\
    go.data fig
    = flat_map (band_traces extended_dates) bands
      ++ go.data (plot.plot_price plot.make_subplots raw_data) /\
    length bands = 9%nat /\
    map (fun b => (plot.band_color b, plot.band_label b)) bands
    = rev plot.COLORS_LABELS.
Proof.
  intros Hne.
  destruct (@plot_rainbow_ok plot.make_subplots raw_data popt plot.NUM_BANDS
                             plot.BAND_WIDTH Hne)
    as (ed & bands & fig' & Hext & Hlen & Hrun & Hdata & Hbands);
    [unfold plot.NUM_BANDS; lia |].
  exists ed, bands. eexists.
  split.
  { unfold plot.create_plot. rewrite Hrun. cbn [bind]. reflexivity. }
  split; [exact Hlen |].
  split.
  { destruct (@extend_dates_ok raw_data plot.EXTEND_MONTHS Hne)
      as (m & _ & Hext'); [unfold plot.EXTEND_MONTHS; lia |].
    rewrite Hext in Hext'. injection Hext' as ->.
    rewrite firstn_app.
    replace (length raw_data) with (length (col_Date raw_data))
      by apply length_map.
    rewrite firstn_all, Nat.sub_diag. cbn [firstn]. apply app_nil_r. }
  split.
  { unfold plot.plot_price, go.add_trace. cbn [go.data].
    rewrite Hdata. reflexivity. }
  split.
  { apply Forall2_length in Hbands. rewrite <- Hbands, length_range.
    reflexivity. }
  apply generated_palette in Hbands.
  apply map_Some_inj. rewrite map_map. rewrite Hbands. reflexivity.
Qed.

(** X7. On a non-empty series [create_plot] returns a figure with exactly
    19 traces: the 18 band traces, each over all n + 270 extended dates,
    followed by the price trace, which is drawn last and shows the input
    dates and values unchanged under the name "BTC Price". *)
Theorem create_plot_traces (raw_data : DataFrame) (popt : R * R * R) :
  raw_data <> [] ->
  exists fig band_part price,
    plot.create_plot raw_data popt = Ok fig /\
    go.data fig = band_part ++ [price] /\
    length (go.data fig) = 19%nat /\
    length band_part = 18%nat /\
    Forall (fun trace =>
              length (go.x trace) = (length raw_data + 270)%nat /\
              firstn (length raw_data) (go.x trace) = col_Date raw_data)
           band_part /\
    go.x price = col_Date raw_data /\
    go.y price = col_Value raw_data /\
    go.name price = Some "BTC Price"%string.
Proof.
  intros Hne.
  destruct (create_plot_data popt Hne)
    as (ed & bands & fig & Hfig & Hlen & Hprefix & Hdata & Hnine & _).
  exists fig, (flat_map (band_traces ed) bands). eexists.
  split; [exact Hfig |]. split; [exact Hdata |].
  assert (Hband_part : length (flat_map (band_traces ed) bands) = 18%nat).
  { rewrite length_band_traces, Hnine. reflexivity. }
  split; [rewrite Hdata, length_app, Hband_part; reflexivity |].
  split; [exact Hband_part |].
  split; [| cbn; repeat split].
  apply Forall_flat_map, Forall_forall. intros b _.
  unfold band_traces, plot.draw_band, go.add_trace. cbn.
  repeat constructor; cbn; assumption.
Qed.

Lemma create_plot_traces_witness :
  [ {| Date := 10; Value := 100 |}; {| Date := 11; Value := 101 |} ] <> [] /\
  exists fig band_part price,
    plot.create_plot [ {| Date := 10; Value := 100 |};
                       {| Date := 11; Value := 101 |} ] (2, 1, 3)%R
    = Ok fig /\
    go.data fig = band_part ++ [price] /\
    length (go.data fig) = 19%nat /\
    length band_part = 18%nat /\
    Forall (fun trace =>
              length (go.x trace) = (2 + 270)%nat /\
              firstn 2 (go.x trace) = [10; 11]%Z)
           band_part /\
    go.x price = [10; 11]%Z /\
    go.y price = [100; 101]%R /\
    go.name price = Some "BTC Price"%string.
Proof.
  split; [discriminate |].
  apply (@create_plot_traces
           [ {| Date := 10; Value := 100 |}; {| Date := 11; Value := 101 |} ]
           (2, 1, 3)%R).
  discriminate.
Defined.

(** X8. The legend of the chart [create_plot] returns for a non-empty
    series lists the nine band labels from the lowest band to the highest,
    "Fire sale!" first and "Maximum bubble territory" last (the palette
    [COLORS_LABELS] in reverse), followed by "BTC Price"; the upper-bound
    traces do not show in it. *)
Theorem create_plot_legend (raw_data : DataFrame) (popt : R * R * R) :
  raw_data <> [] ->
  exists fig,
    plot.create_plot raw_data popt = Ok fig /\
    legend fig = rev (plot.values plot.COLORS_LABELS) ++ ["BTC Price"%string] /\
    legend fig
    = [ "Fire sale!"; "BUY!"; "Accumulate"; "Still cheap"; "HODL!";
        "Is this a bubble?"; "FOMO Intensifies"; "Sell. Seriously, SELL!";
        "Maximum bubble territory"; "BTC Price" ]%string.
Proof.
  intros Hne.
  destruct (create_plot_data popt Hne)
    as (ed & bands & fig & Hfig & _ & _ & Hdata & _ & Hpalette).
  exists fig. split; [exact Hfig |].
  assert (Hlegend : legend fig
                    = rev (plot.values plot.COLORS_LABELS)
                      ++ ["BTC Price"%string]).
  { destruct fig as [traces]. cbn [go.data] in Hdata. subst traces.
    rewrite legend_app, legend_band_traces.
    unfold plot.values. rewrite <- map_rev, <- Hpalette, map_map.
    reflexivity. }
  split; [exact Hlegend |]. rewrite Hlegend. reflexivity.
Qed.

Lemma create_plot_legend_witness :
  [ {| Date := 10; Value := 100 |}; {| Date := 11; Value := 101 |} ] <> [] /\
  exists fig,
    plot.create_plot [ {| Date := 10; Value := 100 |};
                       {| Date := 11; Value := 101 |} ] (2, 1, 3)%R
    = Ok fig /\
    legend fig = rev (plot.values plot.COLORS_LABELS) ++ ["BTC Price"%string] /\
    legend fig
    = [ "Fire sale!"; "BUY!"; "Accumulate"; "Still cheap"; "HODL!";
        "Is this a bubble?"; "FOMO Intensifies"; "Sell. Seriously, SELL!";
        "Maximum bubble territory"; "BTC Price" ]%string.
Proof.
  split; [discriminate |].
  apply (@create_plot_legend
           [ {| Date := 10; Value := 100 |}; {| Date := 11; Value := 101 |} ]
           (2, 1, 3)%R).
  discriminate.
Defined.

(** X9. An empty series cannot be charted: with no latest date to start
    from, [extend_dates] raises for every number of months, and the same
    exception leaves [plot_rainbow] (before it draws anything, for every
    figure, parameters, number of bands and band width) and
    [create_plot]. *)
Theorem empty_series_raises (fig : go.Figure) (popt : R * R * R)
    (months num_bands : Z) (band_width : R) :
  exists e,
    plot.extend_dates [] months = Raise e /\
    plot.plot_rainbow fig [] popt num_bands band_width = Raise e /\
    plot.create_plot [] popt = Raise e.
Proof. eexists. split; [reflexivity |]. split; reflexivity. Qed.

(** ** Date extension, for any number of months *)

Lemma StronglySorted_app_intro (A : Type) (lt : A -> A -> Prop)
    (l1 l2 : list A) :
  StronglySorted lt l1 -> StronglySorted lt l2 ->
  (forall a b, In a l1 -> In b l2 -> lt a b) ->
  StronglySorted lt (l1 ++ l2).
Proof.
  intros Hl1 Hl2 Hcross. induction Hl1 as [| a l1 Hl1 IH Hhd].
  - exact Hl2.
  - cbn [app]. constructor.
    + apply IH. intros a' b Ha' Hb. apply Hcross; [now right | exact Hb].
    + apply Forall_app. split; [exact Hhd |].
      apply Forall_forall. intros b Hb. apply Hcross; [now left | exact Hb].
Qed.

Lemma consecutive_days_sorted (start : Z) (first len : nat) :
  StronglySorted Z.lt
    (map (fun k => (start + Z.of_nat k)%Z) (seq first len)).
Proof.
  revert first. induction len as [| len IH]; intros first; cbn [seq map].
  - constructor.
  - constructor; [apply IH |].
    apply Forall_forall. intros d Hd. apply in_map_iff in Hd.
    destruct Hd as (k & <- & Hk). apply in_seq in Hk. lia.
Qed.

(** X10. For every non-empty series and every number of months >= 0,
    [extend_dates] returns the original dates followed by exactly
    months * 30 dates, the k-th of which (from 0) is k + 1 days after the
    latest original date; with months = 0 the dates come back unchanged. *)
Theorem extend_dates_months (raw_data : DataFrame) (months : Z) :
  raw_data <> [] -> (0 <= months)%Z ->
  exists last_date appended,
    series_max (col_Date raw_data) = Some last_date /\
    plot.extend_dates raw_data months = Ok (col_Date raw_data ++ appended) /\
    length appended = Z.to_nat (months * 30) /\
    (forall k, (k < length appended)%nat ->
               nth_error appended k = Some (last_date + 1 + Z.of_nat k)%Z) /\
    (months = 0%Z -> plot.extend_dates raw_data months = Ok (col_Date raw_data)).
Proof.
  intros Hne Hmonths.
  destruct (extend_dates_ok Hne Hmonths) as (m & Hmax & Hext).
  exists m. eexists.
  split; [exact Hmax |]. split; [exact Hext |].
  split; [now rewrite length_map, length_seq |].
  split.
  - intros k Hk. rewrite length_map, length_seq in Hk.
    rewrite nth_error_map, nth_error_seq.
    apply Nat.ltb_lt in Hk. rewrite Hk. reflexivity.
  - intros ->. rewrite Hext. cbn [Z.mul Z.to_nat seq map].
    now rewrite app_nil_r.
Qed.

Lemma extend_dates_months_witness :
  [ {| Date := 10; Value := 100 |}; {| Date := 11; Value := 101 |} ] <> [] /\
  (0 <= 2)%Z /\
  exists last_date appended,
    series_max (col_Date [ {| Date := 10; Value := 100 |};
                           {| Date := 11; Value := 101 |} ])
    = Some last_date /\
    plot.extend_dates [ {| Date := 10; Value := 100 |};
                        {| Date := 11; Value := 101 |} ] 2
    = Ok (col_Date [ {| Date := 10; Value := 100 |};
                     {| Date := 11; Value := 101 |} ] ++ appended) /\
    length appended = Z.to_nat (2 * 30) /\
    (forall k, (k < length appended)%nat ->
               nth_error appended k = Some (last_date + 1 + Z.of_nat k)%Z) /\
    (2%Z = 0%Z ->
     plot.extend_dates [ {| Date := 10; Value := 100 |};
                         {| Date := 11; Value := 101 |} ] 2
     = Ok (col_Date [ {| Date := 10; Value := 100 |};
                      {| Date := 11; Value := 101 |} ])).
Proof.
  split; [discriminate |]. split; [lia |].
  apply (@extend_dates_months
           [ {| Date := 10; Value := 100 |}; {| Date := 11; Value := 101 |} ]
           2); [discriminate | lia].
Defined.

(** X11. The dates [extend_dates] appends never collide with the series:
    for a non-empty series and months >= 0 every appended date is strictly
    later than every original date, also when the series is not in
    chronological order. *)
Theorem extend_dates_appends_later (raw_data : DataFrame) (months : Z) :
  raw_data <> [] -> (0 <= months)%Z ->
  exists appended,
    plot.extend_dates raw_data months = Ok (col_Date raw_data ++ appended) /\
    forall original later,
      In original (col_Date raw_data) -> In later appended ->
      (original < later)%Z.
Proof.
  intros Hne Hmonths.
  destruct (extend_dates_ok Hne Hmonths) as (m & Hmax & Hext).
  eexists. split; [exact Hext |].
  intros original later Horig Hlater.
  assert (Hdates : col_Date raw_data <> []).
  { destruct raw_data; [congruence | discriminate]. }
  destruct (series_max_spec Hdates) as (m' & Hmax' & _ & Hall).
  assert (m' = m) by congruence. subst m'.
  rewrite Forall_forall in Hall. specialize (Hall original Horig).
  apply in_map_iff in Hlater. destruct Hlater as (k & <- & _). lia.
Qed.

Lemma extend_dates_appends_later_witness :
  [ {| Date := 11; Value := 100 |}; {| Date := 10; Value := 101 |} ] <> [] /\
  (0 <= 9)%Z /\
  exists appended,
    plot.extend_dates [ {| Date := 11; Value := 100 |};
                        {| Date := 10; Value := 101 |} ] 9
    = Ok (col_Date [ {| Date := 11; Value := 100 |};
                     {| Date := 10; Value := 101 |} ] ++ appended) /\
    forall original later,
      In original (col_Date [ {| Date := 11; Value := 100 |};
                              {| Date := 10; Value := 101 |} ]) ->
      In later appended ->
      (original < later)%Z.
Proof.
  split; [discriminate |]. split; [lia |].
  apply (@extend_dates_appends_later
           [ {| Date := 11; Value := 100 |}; {| Date := 10; Value := 101 |} ]
           9); [discriminate | lia].
Defined.

(** X12. [extend_dates] keeps a series strictly increasing: if the dates of
    a non-empty series are strictly increasing (no duplicate, no date out
    of order), so are the extended dates, for every months >= 0. *)
Theorem extend_dates_strictly_increasing (raw_data : DataFrame) (months : Z) :
  raw_data <> [] -> (0 <= months)%Z ->
  StronglySorted Z.lt (col_Date raw_data) ->
  exists extended_dates,
    plot.extend_dates raw_data months = Ok extended_dates /\
    StronglySorted Z.lt extended_dates.
Proof.
  intros Hne Hmonths Hsorted.
  destruct (extend_dates_ok Hne Hmonths) as (m & Hmax & Hext).
  eexists. split; [exact Hext |].
  apply StronglySorted_app_intro; [exact Hsorted | |].
  - apply (consecutive_days_sorted (m + 1) 0).
  - intros original later Horig Hlater.
    assert (Hdates : col_Date raw_data <> []).
    { destruct raw_data; [congruence | discriminate]. }
    destruct (series_max_spec Hdates) as (m' & Hmax' & _ & Hall).
    assert (m' = m) by congruence. subst m'.
    rewrite Forall_forall in Hall. specialize (Hall original Horig).
    apply in_map_iff in Hlater. destruct Hlater as (k & <- & _). lia.
Qed.

Lemma extend_dates_strictly_increasing_witness :
  [ {| Date := 10; Value := 100 |}; {| Date := 12; Value := 101 |} ] <> [] /\
  (0 <= 9)%Z /\
  StronglySorted Z.lt
    (col_Date [ {| Date := 10; Value := 100 |};
                {| Date := 12; Value := 101 |} ]) /\
  exists extended_dates,
    plot.extend_dates [ {| Date := 10; Value := 100 |};
                        {| Date := 12; Value := 101 |} ] 9
    = Ok extended_dates /\
    StronglySorted Z.lt extended_dates.
Proof.
  assert (Hsorted : StronglySorted Z.lt
            (col_Date [ {| Date := 10; Value := 100 |};
                        {| Date := 12; Value := 101 |} ])).
  { cbn. repeat constructor. }
  split; [discriminate |]. split; [lia |]. split; [exact Hsorted |].
  apply (@extend_dates_strictly_increasing
           [ {| Date := 10; Value := 100 |}; {| Date := 12; Value := 101 |} ]
           9); [discriminate | lia | exact Hsorted].
Defined.

(** ** The y axis *)

Lemma fold_left_Rmax_spec (rest : list R) (v : R) :
  let highest := fold_left Rmax rest v in
  In highest (v :: rest) /\ Forall (fun e => (e <= highest)%R) (v :: rest).
Proof.
  revert v. induction rest as [| e rest IH]; intros v; cbn.
  - split; [now left |]. constructor; [lra | constructor].
  - destruct (IH (Rmax v e)) as [Hin Hall]. cbn in Hin, Hall.
    inversion Hall as [| ? ? Hhd Htl]; subst.
    split.
    + destruct Hin as [Hm | Hin]; [| right; right; exact Hin].
      revert Hm. unfold Rmax at 1. destruct (Rle_dec v e); intros Hm;
        [right; left | left]; exact Hm.
    + pose proof (Rmax_l v e). pose proof (Rmax_r v e).
      constructor; [lra |]. constructor; [lra | exact Htl].
Qed.

Lemma ln_10_pos : (0 < ln 10)%R.
Proof. rewrite <- ln_1. apply ln_increasing; lra. Qed.

Lemma log10_hundredth : plot.log10 0.01 = (-2)%R.
Proof.
  unfold plot.log10.
  replace 0.01%R with (/ (10 * 10))%R by lra.
  rewrite ln_Rinv, ln_mult by lra.
  pose proof ln_10_pos. field. lra.
Qed.

Lemma log10_times_10 (v : R) :
  (0 < v)%R -> plot.log10 (v * 10) = (plot.log10 v + 1)%R.
Proof.
  intros Hv. unfold plot.log10. rewrite ln_mult by lra.
  pose proof ln_10_pos. field. lra.
Qed.

Lemma log10_le (v w : R) :
  (0 < v)%R -> (v <= w)%R -> (plot.log10 v <= plot.log10 w)%R.
Proof.
  intros Hv Hvw. unfold plot.log10.
  apply Rmult_le_compat_r.
  - left. apply Rinv_0_lt_compat, ln_10_pos.
  - destruct Hvw as [Hlt | ->]; [left; now apply ln_increasing | lra].
Qed.

(** X13. For a non-empty series of positive prices the logarithmic y axis
    that [configure_plot] sets runs from -2 (one cent) to one decade above
    the highest price, log10(max price) + 1: no price is cut off at the
    top, and every price of at least 0.01 lies inside the range. *)
Theorem yaxis_range_shows_prices (raw_data : DataFrame) :
  raw_data <> [] ->
  Forall (fun r => (0 < Value r)%R) raw_data ->
  exists highest,
    In highest (col_Value raw_data) /\
    Forall (fun v => (v <= highest)%R) (col_Value raw_data) /\
    plot.yaxis_range raw_data = Some ((-2)%R, (plot.log10 highest + 1)%R) /\
    forall r, In r raw_data ->
      (plot.log10 (Value r) <= plot.log10 highest)%R /\
      (plot.log10 (Value r) < plot.log10 highest + 1)%R /\
      ((0.01 <= Value r)%R -> (-2 <= plot.log10 (Value r))%R).
Proof.
  intros Hne Hpos.
  destruct raw_data as [| r0 rest]; [congruence |].
  destruct (fold_left_Rmax_spec (col_Value rest) (Value r0)) as [Hin Hall].
  set (highest := fold_left Rmax (col_Value rest) (Value r0)) in *.
  change (Value r0 :: col_Value rest) with (col_Value (r0 :: rest)) in Hin, Hall.
  assert (Hhigh : (0 < highest)%R).
  { unfold col_Value in Hin. apply in_map_iff in Hin.
    destruct Hin as (r & <- & Hr).
    rewrite Forall_forall in Hpos. now apply Hpos. }
  exists highest. split; [exact Hin |]. split; [exact Hall |].
  split.
  { unfold plot.yaxis_range. cbn [col_Value map plot.values_max option_map].
    fold (col_Value rest). fold highest.
    now rewrite log10_hundredth, log10_times_10. }
  intros r Hr.
  assert (Hv : (0 < Value r)%R).
  { rewrite Forall_forall in Hpos. now apply Hpos. }
  assert (Hle : (Value r <= highest)%R).
  { rewrite Forall_forall in Hall. apply Hall. unfold col_Value.
    now apply in_map. }
  pose proof (log10_le Hv Hle) as Hlog.
  split; [exact Hlog |]. split; [lra |].
  intros Hcent. rewrite <- log10_hundredth. apply log10_le; lra.
Qed.

Lemma yaxis_range_shows_prices_witness :
  [ {| Date := 10; Value := 100 |}; {| Date := 11; Value := 101 |} ] <> [] /\
  Forall (fun r => (0 < Value r)%R)
         [ {| Date := 10; Value := 100 |}; {| Date := 11; Value := 101 |} ] /\
  exists highest,
    In highest (col_Value [ {| Date := 10; Value := 100 |};
                            {| Date := 11; Value := 101 |} ]) /\
    Forall (fun v => (v <= highest)%R)
           (col_Value [ {| Date := 10; Value := 100 |};
                        {| Date := 11; Value := 101 |} ]) /\
    plot.yaxis_range [ {| Date := 10; Value := 100 |};
                       {| Date := 11; Value := 101 |} ]
    = Some ((-2)%R, (plot.log10 highest + 1)%R) /\
    forall r, In r [ {| Date := 10; Value := 100 |};
                     {| Date := 11; Value := 101 |} ] ->
      (plot.log10 (Value r) <= plot.log10 highest)%R /\
      (plot.log10 (Value r) < plot.log10 highest + 1)%R /\
      ((0.01 <= Value r)%R -> (-2 <= plot.log10 (Value r))%R).
Proof.
  assert (Hpos : Forall (fun r => (0 < Value r)%R)
            [ {| Date := 10; Value := 100 |};
              {| Date := 11; Value := 101 |} ]).
  { repeat constructor; cbn; lra. }
  split; [discriminate |]. split; [exact Hpos |].
  apply (@yaxis_range_shows_prices
           [ {| Date := 10; Value := 100 |}; {| Date := 11; Value := 101 |} ]);
    [discriminate | exact Hpos].
Defined.

(** ** What [main] writes *)

(** X14. When the data is loaded with at least one row, the chart has 19
    traces and [main] ends in one of these ways.  With save, if
    [write_html] returns, one HTML file has been written at [file_path]
    (plotly from the CDN, mode bar off, responsive) and then "Chart saved
    to <file_path>" is printed; if [write_html] raises (a path that cannot
    be written), [main] raises and nothing is printed.  Without save the
    chart is only shown.  When loading raises, the same exception ends
    [main] and nothing is written, printed or shown. *)
Theorem main_effects_all_or_nothing (raw_data : DataFrame)
    (popt : R * R * R) (file_path : string) :
  raw_data <> [] ->
  exists fig,
    plot.create_plot raw_data popt = Ok fig /\
    length (go.data fig) = 19%nat /\
    main.main_effects (Ok (raw_data, popt)) true file_path main.io_returns
    = ([ main.write_html fig file_path true "cdn" false true;
         main.print ("Chart saved to " ++ file_path)%string ],
       main.returned) /\
    main.main_effects (Ok (raw_data, popt)) true file_path main.io_raises
    = ([], main.raised_io) /\
    main.main_effects (Ok (raw_data, popt)) false file_path main.io_returns
    = ([ main.show fig true ], main.returned) /\
    main.main_effects (Ok (raw_data, popt)) false file_path main.io_raises
    = ([], main.raised_io) /\
    forall e save io,
      main.main_effects (Raise e) save file_path io = ([], main.raised e).
Proof.
  intros Hne.
  destruct (create_plot_data popt Hne)
    as (ed & bands & fig & Hfig & _ & _ & Hdata & Hnine & _).
  exists fig. split; [exact Hfig |].
  split.
  { rewrite Hdata, length_app, length_band_traces, Hnine. reflexivity. }
  unfold main.main_effects. rewrite Hfig.
  repeat split.
Qed.

Lemma main_effects_all_or_nothing_witness :
  [ {| Date := 10; Value := 100 |}; {| Date := 11; Value := 101 |} ] <> [] /\
  exists fig,
    plot.create_plot [ {| Date := 10; Value := 100 |};
                       {| Date := 11; Value := 101 |} ] (2, 1, 3)%R
    = Ok fig /\
    length (go.data fig) = 19%nat /\
    main.main_effects
      (Ok ([ {| Date := 10; Value := 100 |}; {| Date := 11; Value := 101 |} ],
           (2, 1, 3)%R))
      true "chart.html" main.io_returns
    = ([ main.write_html fig "chart.html" true "cdn" false true;
         main.print "Chart saved to chart.html" ],
       main.returned) /\
    main.main_effects
      (Ok ([ {| Date := 10; Value := 100 |}; {| Date := 11; Value := 101 |} ],
           (2, 1, 3)%R))
      true "chart.html" main.io_raises
    = ([], main.raised_io) /\
    main.main_effects
      (Ok ([ {| Date := 10; Value := 100 |}; {| Date := 11; Value := 101 |} ],
           (2, 1, 3)%R))
      false "chart.html" main.io_returns
    = ([ main.show fig true ], main.returned) /\
    main.main_effects
      (Ok ([ {| Date := 10; Value := 100 |}; {| Date := 11; Value := 101 |} ],
           (2, 1, 3)%R))
      false "chart.html" main.io_raises
    = ([], main.raised_io) /\
    forall e save io,
      main.main_effects (Raise e) save "chart.html" io = ([], main.raised e).
Proof.
  split; [discriminate |].
  apply (@main_effects_all_or_nothing
           [ {| Date := 10; Value := 100 |}; {| Date := 11; Value := 101 |} ]
           (2, 1, 3)%R "chart.html").
  discriminate.
Defined.

(** ** Axis labels: [y_format] *)

(** The labels of some exactly representable prices; 0.125 and 1250 / 1000
    are ties and go to the even digit, 1050 / 1000 and 1150 / 1000 are not
    exactly 1.05 and 1.15 and both read 1,1K. *)
Example y_format_labels :
  map plot.y_format
      [0.5; 0.125; -0; 1; 9.75; 10; 150.5; 999.5; 1000; 1050; 1150; 1250;
       1500; 10000; 999999; 1000000; 2500000; infinity; neg_infinity; nan]%float
  = map Some
      [ "$0.50"; "$0.12"; "$-0.00"; "$1.0"; "$9.8"; "$10"; "$150"; "$999";
        "$1K"; "$1,1K"; "$1,1K"; "$1,2K"; "$1,5K"; "$10K"; "$1000K"; "$1M";
        "$2,5M"; "$infM"; "$-inf"; "$nanM" ]%string.
Proof. vm_compute. reflexivity. Qed.

Lemma Prim2SF_1 : Prim2SF 1 = S754_finite false 4503599627370496 (-52).
Proof. vm_compute. reflexivity. Qed.
Lemma Prim2SF_10 : Prim2SF 10 = S754_finite false 5629499534213120 (-49).
Proof. vm_compute. reflexivity. Qed.
Lemma Prim2SF_1000 : Prim2SF 1000 = S754_finite false 8796093022208000 (-43).
Proof. vm_compute. reflexivity. Qed.

(** Comparing a finite float with a positive finite one. *)
Lemma SFltb_finite_pos (s : bool) (m m' : positive) (e e' : Z) :
  SFltb (S754_finite s m e) (S754_finite false m' e')
  = if s then true
    else match (e ?= e')%Z with
         | Lt => true
         | Gt => false
         | Eq => match Pos.compare_cont Eq m m' with Lt => true | _ => false end
         end.
Proof.
  unfold SFltb, SFcompare. destruct s; [reflexivity |].
  destruct (e ?= e')%Z; reflexivity.
Qed.

(** A float that is not below 1000 is not below 1 or 10 either (nan is
    below nothing). *)
Lemma not_below_1000 (y : float) :
  (y <? 1000)%float = false ->
  (y <? 1)%float = false /\ (y <? 10)%float = false.
Proof.
  rewrite !ltb_spec, Prim2SF_1, Prim2SF_10, Prim2SF_1000.
  destruct (Prim2SF y) as [s | s | | s m e].
  - discriminate.
  - destruct s; [discriminate | now split].
  - now split.
  - rewrite !SFltb_finite_pos. destruct s; [discriminate |].
    destruct (Z.compare_spec e (-43)) as [-> | Hlt | Hgt].
    + now split.
    + discriminate.
    + intros _.
      destruct (Z.compare_spec e (-52)); destruct (Z.compare_spec e (-49));
        try lia; now split.
Qed.

(** Between 1 and 1000 a float is finite, so [int] is defined on it. *)
Lemma int_of_float_defined (y : float) :
  (y <? 1)%float = false -> (y <? 1000)%float = true ->
  exists n, py.int_of_float y = Some n.
Proof.
  rewrite !ltb_spec, Prim2SF_1, Prim2SF_1000. unfold py.int_of_float.
  destruct (Prim2SF y) as [s | s | | s m e].
  - intros _ _. now eexists.
  - destruct s; discriminate.
  - discriminate.
  - intros _ _. now eexists.
Qed.

Lemma replace_keeps_dollar (first : ascii) (old new rest : string) :
  first <> "$"%char ->
  py.replace (String first old) new (String "$" rest)
  = String "$" (py.replace (String first old) new rest).
Proof.
  intros Hfirst. unfold py.replace. cbn [py.replace_from prefix].
  destruct (ascii_dec first "$"); [contradiction | reflexivity].
Qed.

(** X15. [y_format] never raises, whatever float it is given (nan and the
    infinities included: [int] is only reached between 10 and 1000), and
    every label starts with the dollar sign. *)
Theorem y_format_total (y : float) :
  exists rest, plot.y_format y = Some (String "$" rest).
Proof.
  unfold plot.y_format.
  destruct (y <? 1)%float eqn:H1; [eexists; reflexivity |].
  destruct (y <? 10)%float eqn:H10; [eexists; reflexivity |].
  destruct (y <? 1000)%float eqn:H1000.
  - destruct (@int_of_float_defined y H1 H1000) as (n & ->).
    cbn [option_map String.append].
    rewrite replace_keeps_dollar by discriminate. eexists; reflexivity.
  - destruct (y <? 1000000)%float; cbn [String.append];
      rewrite !replace_keeps_dollar by discriminate; eexists; reflexivity.
Qed.

Lemma replace_point_gone (s : string) :
  ~ In "."%char (list_ascii_of_string (py.replace "." "," s)).
Proof.
  unfold py.replace. induction s as [| c s IH]; cbn [py.replace_from prefix].
  - intros [].
  - destruct (ascii_dec "." c) as [<- | Hc].
    + destruct s; cbn [prefix String.length Nat.sub String.append
                       list_ascii_of_string];
        intros [Habs | Hin]; try discriminate; now apply IH.
    + cbn [list_ascii_of_string]. intros [Habs | Hin];
        [now apply Hc | now apply IH].
Qed.

(** X16. From 1000 on (and for nan) the label uses a decimal comma: for
    every float that is not below 1000, [y_format] returns a label without
    any "." in it. *)
Theorem y_format_decimal_comma (y : float) :
  (y <? 1000)%float = false ->
  exists label,
    plot.y_format y = Some label /\
    ~ In "."%char (list_ascii_of_string label).
Proof.
  intros H1000. destruct (@not_below_1000 y H1000) as [H1 H10].
  unfold plot.y_format. rewrite H1, H10, H1000.
  destruct (y <? 1000000)%float; eexists; (split; [reflexivity |]);
    apply replace_point_gone.
Qed.

Lemma y_format_decimal_comma_witness :
  (1500 <? 1000)%float = false /\
  exists label,
    plot.y_format 1500 = Some label /\
    ~ In "."%char (list_ascii_of_string label).
Proof.
  split; [reflexivity |].
  apply (@y_format_decimal_comma 1500%float). reflexivity.
Defined.

(** A mantissa of [d] binary digits lies between 2^(d-1) and 2^d. *)
Lemma digits2_pos_bounds (m : positive) :
  (2 ^ (Z.pos (digits2_pos m) - 1) <= Z.pos m < 2 ^ Z.pos (digits2_pos m))%Z.
Proof.
  induction m as [m IH | m IH |]; cbn [digits2_pos].
  - rewrite Pos2Z.inj_succ.
    replace (Z.succ (Z.pos (digits2_pos m)) - 1)%Z
      with (Z.succ (Z.pos (digits2_pos m) - 1))%Z by lia.
    rewrite !Z.pow_succ_r by lia. lia.
  - rewrite Pos2Z.inj_succ.
    replace (Z.succ (Z.pos (digits2_pos m)) - 1)%Z
      with (Z.succ (Z.pos (digits2_pos m) - 1))%Z by lia.
    rewrite !Z.pow_succ_r by lia. lia.
  - cbn. lia.
Qed.

Lemma compare_cont_Eq (m n : positive) :
  Pos.compare_cont Eq m n = (m ?= n)%positive.
Proof. reflexivity. Qed.

(** The mantissa comparison of [SFltb] as a comparison of integers. *)
Lemma below_pos (m n : positive) :
  match Pos.compare_cont Eq m n with Lt => true | _ => false end
  = (Z.pos m <? Z.pos n)%Z.
Proof.
  rewrite compare_cont_Eq. unfold Z.ltb. reflexivity.
Qed.

Lemma between_10_and_1000 (y : float) :
  (y <? 10)%float = false -> (y <? 1000)%float = true ->
  exists m e,
    Prim2SF y = S754_finite false m e /\
    (-49 <= e <= -43)%Z /\
    (2 ^ 52 <= Z.pos m < 2 ^ 53)%Z /\
    (e = -49 -> 10 * 2 ^ 49 <= Z.pos m)%Z /\
    (e = -43 -> Z.pos m < 1000 * 2 ^ 43)%Z.
Proof.
  pose proof (Prim2SF_valid y) as Hvalid. revert Hvalid.
  rewrite !ltb_spec, Prim2SF_10, Prim2SF_1000.
  destruct (Prim2SF y) as [s | s | | s m e]; intros Hvalid.
  - discriminate.
  - destruct s; discriminate.
  - discriminate.
  - rewrite !SFltb_finite_pos, !below_pos. destruct s; [discriminate |].
    intros H10 H1000. exists m, e. split; [reflexivity |].
    assert (Hlo : (-49 < e \/ e = -49 /\ 5629499534213120 <= Z.pos m)%Z).
    { destruct (Z.compare_spec e (-49)) as [He | Hlt | Hgt];
        [right | discriminate | left; lia].
      split; [exact He |]. apply Z.ltb_ge in H10. exact H10. }
    assert (Hhi : (e < -43 \/ e = -43 /\ Z.pos m < 8796093022208000)%Z).
    { destruct (Z.compare_spec e (-43)) as [He | Hlt | Hgt];
        [right | left; lia | discriminate].
      split; [exact He |]. apply Z.ltb_lt in H1000. exact H1000. }
    assert (He : (-49 <= e <= -43)%Z) by (lia).
    split; [exact He |].
    unfold SpecFloat.valid_binary, bounded, canonical_mantissa, fexp,
      SpecFloat.emin, prec, emax in Hvalid.
    apply andb_prop in Hvalid. destruct Hvalid as [Hcanon _].
    apply Z.eqb_eq in Hcanon.
    assert (Hdigits : Z.pos (digits2_pos m) = 53%Z) by (lia).
    pose proof (digits2_pos_bounds m) as Hm. rewrite Hdigits in Hm.
    change (53 - 1)%Z with 52%Z in Hm.
    split; [exact Hm |].
    change (10 * 2 ^ 49)%Z with 5629499534213120%Z.
    change (1000 * 2 ^ 43)%Z with 8796093022208000%Z.
    split; intros Heq; lia.
Qed.

(** Between 10 and 1000 [int] gives an integer from 10 to 999. *)
Lemma hundreds_int (y : float) :
  (y <? 10)%float = false -> (y <? 1000)%float = true ->
  exists n, py.int_of_float y = Some n /\ (10 <= n <= 999)%Z.
Proof.
  intros H10 H1000.
  destruct (@between_10_and_1000 y H10 H1000)
    as (m & e & Hy & He & Hm & Hlo & Hhi).
  unfold py.int_of_float. rewrite Hy.
  destruct (Z.leb_spec 0 e) as [Hpos | _]; [lia |].
  eexists. split; [reflexivity |].
  assert (Hcases : (e = -49 \/ e = -48 \/ e = -47 \/ e = -46 \/ e = -45
                    \/ e = -44 \/ e = -43)%Z) by lia.
  clear He.
  repeat (destruct Hcases as [-> | Hcases]); [.. | subst e];
    cbn [Z.opp]; (split;
      [apply Z.div_le_lower_bound | apply Z.lt_succ_r, Z.div_lt_upper_bound]);
    lia.
Qed.

(** Up to 999 there is no thousands separator to replace. *)
Lemma hundreds_label (n : Z) :
  (10 <= n <= 999)%Z ->
  py.replace "," "." ("$" ++ py.format_comma n) = ("$" ++ py.digits n)%string.
Proof.
  intros Hn.
  assert (Htable :
    forallb (fun k =>
               String.eqb
                 (py.replace "," "."
                    ("$" ++ py.format_comma (10 + Z.of_nat k)))
                 ("$" ++ py.digits (10 + Z.of_nat k)))
            (seq 0 990) = true) by (vm_compute; reflexivity).
  rewrite forallb_forall in Htable.
  specialize (Htable (Z.to_nat (n - 10))).
  replace (10 + Z.of_nat (Z.to_nat (n - 10)))%Z with n in Htable by lia.
  apply String.eqb_eq, Htable, in_seq. lia.
Qed.

(** X17. From 10 up to (not including) 1000 the label is the dollar sign
    followed by the digits of the integer part of the price, which lies
    between 10 and 999: the fraction is cut off, not rounded, and the
    label has no separator. *)
Theorem y_format_hundreds (y : float) :
  (y <? 10)%float = false -> (y <? 1000)%float = true ->
  exists n,
    py.int_of_float y = Some n /\ (10 <= n <= 999)%Z /\
    plot.y_format y = Some ("$" ++ py.digits n)%string.
Proof.
  intros H10 H1000.
  destruct (@hundreds_int y H10 H1000) as (n & Hint & Hn).
  exists n. split; [exact Hint |]. split; [exact Hn |].
  assert (H1 : (y <? 1)%float = false).
  { destruct (@between_10_and_1000 y H10 H1000) as (m & e & Hy & He & _).
    rewrite ltb_spec, Prim2SF_1, Hy, SFltb_finite_pos.
    destruct (Z.compare_spec e (-52)); [lia | lia | reflexivity]. }
  unfold plot.y_format. rewrite H1, H10, H1000, Hint. cbn [option_map].
  now rewrite hundreds_label.
Qed.

Lemma y_format_hundreds_witness :
  (150.5 <? 10)%float = false /\ (150.5 <? 1000)%float = true /\
  exists n,
    py.int_of_float 150.5 = Some n /\ (10 <= n <= 999)%Z /\
    plot.y_format 150.5 = Some ("$" ++ py.digits n)%string.
Proof.
  split; [reflexivity |]. split; [reflexivity |].
  apply (@y_format_hundreds 150.5%float); reflexivity.
Defined.
